(** * simple-marketplace-ts: the cart reducer and the values derived from it

    A shallow embedding of [src/context/CartProvider.tsx]: the [reducer] of
    the cart, the hook [useCartContext] that computes [totalItems],
    [totalPrice] and the sorted [cart], and the JavaScript built-ins these
    two call ([Number], [String.prototype.slice], [Array.prototype.sort],
    [Intl.NumberFormat], arithmetic on binary64 numbers).

    Conventions of the model.
    - A JavaScript [number] is an IEEE 754 binary64 value: [spec_float] of
      the standard library with [prec = 53] and [emax = 1024].  Prices, sort
      keys and the price total are such numbers and are rounded as the
      engine rounds them.
    - [qty] is a counter: it is [1] on insertion, incremented by [1], or
      set from the payload.  It is kept as a [Z]; a binary64 number holds
      every integer of magnitude at most 2^53 exactly, and the model is
      exact for such quantities.  Where [qty] meets a price it is converted
      with [number_of_Z].
    - A string is a [string] of the standard library, read as a sequence of
      code units below 256.
    - [throw new Error(msg)] is the result [Throw msg].
    - The state React holds is passed explicitly: a dispatch replaces it by
      what the reducer returns, a render runs the hook on it, and the hook
      returns its value together with the state as it leaves it. *)

From Stdlib Require Import ZArith List String Ascii Bool Lia.
From Stdlib Require Import Permutation Sorted.
From Stdlib Require Import Floats.SpecFloat.
From Stdlib Require Import DecimalString.
Import ListNotations.

Local Open Scope string_scope.
Local Open Scope list_scope.
Local Open Scope Z_scope.

(** ** binary64 numbers *)

Module Binary64.

Definition prec : Z := 53.
Definition emax : Z := 1024.

Definition number : Type := spec_float.

Definition NaN : number := S754_nan.
Definition pos_zero : number := S754_zero false.

(** [x + y], [x - y] and [x * y] of two numbers. *)
Definition add (x y : number) : number := SFadd prec emax x y.
Definition sub (x y : number) : number := SFsub prec emax x y.
Definition mul (x y : number) : number := SFmul prec emax x y.

(** The number nearest to the integer [z] (ties to even). *)
Definition number_of_Z (z : Z) : number := binary_normalize prec emax z 0 false.

(** The number nearest to [m / d] for [m >= 0] and [d > 0], with sign [s]. *)
Definition number_of_ratio (s : bool) (m d : Z) : number :=
  match m with
  | Z0 => S754_zero s
  | _ =>
    let '(q, e, l) := SFdiv_core_binary prec emax m 0 d 0 in
    binary_round_aux prec emax s q e l
  end.

Definition is_nan (x : number) : bool :=
  match x with S754_nan => true | _ => false end.

(** [x < 0] and [x > 0]; both are [false] on [NaN] and on the zeros. *)
Definition ltb_zero (x : number) : bool := SFltb x pos_zero.
Definition gtb_zero (x : number) : bool := SFltb pos_zero x.

(** The least exponent of a binary64 number, -1074. *)
Definition emin64 : Z := emin prec emax.

(** Zero, or finite with an exponent a binary64 number can have. *)
Definition is_finite (x : number) : bool :=
  match x with
  | S754_zero _ => true
  | S754_finite _ _ e => emin64 <=? e
  | _ => false
  end.

(** The value of a finite number times 2^1074, an integer. *)
Definition scaled (x : number) : Z :=
  match x with
  | S754_finite s m e => cond_Zopp s (Zpos m * 2 ^ (e - emin64))
  | _ => 0
  end.

(** [x] is finite or infinite, not zero, and of sign [s]. *)
Definition has_sign (s : bool) (x : number) : Prop :=
  (exists m e, x = S754_finite s m e) \/ x = S754_infinity s.

(** The integer a number is, when it is one. *)
Definition integer_value (x : number) : option Z :=
  match x with
  | S754_zero _ => Some 0
  | S754_finite s m e =>
    if emin64 <=? e then
      if 0 <=? e then Some (cond_Zopp s (Zpos m * 2 ^ e))
      else if Zpos m mod 2 ^ (- e) =? 0
           then Some (cond_Zopp s (Zpos m / 2 ^ (- e)))
           else None
    else None
  | _ => None
  end.

End Binary64.
Export Binary64.

(** ** Strings: [slice] and [Number] *)

Module JSString.

(** [s.slice(-n)]: the last [n] code units of [s], all of [s] when it is
    shorter. *)
Definition slice_from_end (n : nat) (s : string) : string :=
  substring (String.length s - n) n s.

(** White space and line terminators among the code units below 256. *)
Definition is_white_space (c : ascii) : bool :=
  let n := N_of_ascii c in
  ((9 <=? n) && (n <=? 13) || (n =? 32) || (n =? 160))%N.

Fixpoint trim_start (l : list ascii) : list ascii :=
  match l with
  | c :: l' => if is_white_space c then trim_start l' else l
  | [] => []
  end.

Definition trim (l : list ascii) : list ascii :=
  rev (trim_start (rev (trim_start l))).

(** The value of the digit [c] in the given radix. *)
Definition digit_value (radix : Z) (c : ascii) : option Z :=
  let n := Z.of_N (N_of_ascii c) in
  let v :=
    if (48 <=? n) && (n <=? 57) then Some (n - 48)
    else if (97 <=? n) && (n <=? 102) then Some (n - 87)
    else if (65 <=? n) && (n <=? 70) then Some (n - 55)
    else None in
  match v with
  | Some d => if d <? radix then Some d else None
  | None => None
  end.

(** The longest prefix of digits, read as an integer in the radix, with
    the number of digits read and the rest of the input. *)
Fixpoint read_digits (radix : Z) (acc : Z) (count : nat) (l : list ascii)
  : Z * nat * list ascii :=
  match l with
  | c :: l' =>
    match digit_value radix c with
    | Some d => read_digits radix (acc * radix + d) (S count) l'
    | None => (acc, count, l)
    end
  | [] => (acc, count, [])
  end.

(** [NonDecimalIntegerLiteral]: the digits after [0x], [0o] or [0b]. *)
Definition non_decimal (radix : Z) (l : list ascii) : number :=
  match read_digits radix 0 0 l with
  | (v, S _, []) => number_of_Z v
  | _ => NaN
  end.

(** [ExponentPart] when present: the exponent and the rest. *)
Definition read_exponent (l : list ascii) : option (Z * list ascii) :=
  match l with
  | c :: l' =>
    if (Ascii.eqb c "e" || Ascii.eqb c "E")%char then
      let '(neg, l'') :=
        match l' with
        | s :: r =>
          if Ascii.eqb s "-"%char then (true, r)
          else if Ascii.eqb s "+"%char then (false, r)
          else (false, l')
        | [] => (false, l')
        end in
      match read_digits 10 0 0 l'' with
      | (v, S _, r) => Some (if neg then - v else v, r)
      | _ => None
      end
    else Some (0, l)
  | [] => Some (0, [])
  end.

(** [StrUnsignedDecimalLiteral] with the sign [s] read before it. *)
Definition unsigned_decimal (s : bool) (l : list ascii) : number :=
  if list_eq_dec ascii_dec l (list_ascii_of_string "Infinity")
  then S754_infinity s
  else
    let '(int_v, int_n, r) := read_digits 10 0 0 l in
    let '(mant, frac_n, r') :=
      match r with
      | c :: r1 =>
        if Ascii.eqb c "."%char
        then let '(v, n, r2) := read_digits 10 int_v 0 r1 in (v, n, r2)
        else (int_v, O, r)
      | [] => (int_v, O, r)
      end in
    match (int_n + frac_n)%nat with
    | O => NaN
    | S _ =>
      match read_exponent r' with
      | Some (e, []) =>
        let k := e - Z.of_nat frac_n in
        if 0 <=? k
        then
          match mant with
          | Z0 => S754_zero s
          | _ => number_of_Z (cond_Zopp s (mant * 10 ^ k))
          end
        else number_of_ratio s mant (10 ^ (- k))
      | _ => NaN
      end
    end.

(** [StringToNumber]: what [Number(s)] returns for a string [s]. *)
Definition Number (s : string) : number :=
  match trim (list_ascii_of_string s) with
  | [] => pos_zero
  | c :: r =>
    let prefixed (radix : Z) (l : list ascii) := non_decimal radix l in
    if Ascii.eqb c "-"%char then unsigned_decimal true r
    else if Ascii.eqb c "+"%char then unsigned_decimal false r
    else
      match c, r with
      | "0"%char, x :: r' =>
        if (Ascii.eqb x "x" || Ascii.eqb x "X")%char then prefixed 16 r'
        else if (Ascii.eqb x "o" || Ascii.eqb x "O")%char then prefixed 8 r'
        else if (Ascii.eqb x "b" || Ascii.eqb x "B")%char then prefixed 2 r'
        else unsigned_decimal false (c :: r)
      | _, _ => unsigned_decimal false (c :: r)
      end
  end.

End JSString.
Export JSString.

(** ** [Intl.NumberFormat('en-US', { style: 'currency', currency: 'USD' })] *)

Module Intl.

(** The digits of [l], least significant first, with a comma after every
    third digit that has a digit after it. *)
Fixpoint group_thousands (l : list ascii) : list ascii :=
  match l with
  | a :: b :: c :: ((_ :: _) as r) => a :: b :: c :: ","%char :: group_thousands r
  | _ => l
  end.

Definition decimal_digits (n : Z) : list ascii :=
  list_ascii_of_string (NilZero.string_of_uint (N.to_uint (Z.to_N n))).

(** A number of cents written as dollars and cents. *)
Definition currency_of_cents (n : Z) : string :=
  let dollars := rev (group_thousands (rev (decimal_digits (n / 100)))) in
  let cents := decimal_digits (n mod 100) in
  "$" ++ string_of_list_ascii dollars ++ "." ++
  string_of_list_ascii (match cents with [c] => ["0"%char; c] | _ => cents end).

(** The magnitude [m * 2^e] in cents, rounded to the nearest integer, a
    half rounding up: two fraction digits with the rounding mode
    halfExpand, taken on the exact value of the number. *)
Definition round_cents (m : positive) (e : Z) : Z :=
  if 0 <=? e then Zpos m * 2 ^ e * 100
  else (200 * Zpos m + 2 ^ (- e)) / 2 ^ (1 - e).

(** [format(x)]: the sign, the currency sign, the dollars in groups of
    three digits and the cents.  The infinity sign is written in UTF-8. *)
Definition format (x : number) : string :=
  match x with
  | S754_nan => "$NaN"
  | S754_infinity s => (if s then "-" else "") ++ "$∞"
  | S754_zero s => (if s then "-" else "") ++ currency_of_cents 0
  | S754_finite s m e => (if s then "-" else "") ++ currency_of_cents (round_cents m e)
  end.

End Intl.

(** ** [Array.prototype.sort]

    The engine sorts with calls of [SortCompare]; the order of the calls is
    its own choice, and for a consistent comparator every choice gives the
    one stable sorted order.  The model is the stable insertion sort. *)

Module JSArray.
Section Sort.
Context {A : Type}.
Variable comparefn : A -> A -> number.

(** The result of [comparefn], [NaN] replaced by [+0]. *)
Definition SortCompare (x y : A) : number :=
  let v := comparefn x y in
  if is_nan v then pos_zero else v.

(** [x] goes after every [y] with [SortCompare x y > 0] at the head. *)
Fixpoint insert (x : A) (l : list A) : list A :=
  match l with
  | [] => [x]
  | y :: l' =>
    if gtb_zero (SortCompare x y) then y :: insert x l' else x :: l
  end.

Definition sort (l : list A) : list A := fold_right insert [] l.
End Sort.
End JSArray.

(** ** The cart: [CartProvider.tsx] *)

Record CartItemType : Type := {
  sku : string;
  name : string;
  price : number;
  qty : Z
}.

Record CartStateType : Type := { cart : list CartItemType }.

Definition initCartState : CartStateType := {| cart := [] |}.

Module REDUCER_ACTION_TYPE.
Definition ADD : string := "ADD".
Definition REMOVE : string := "REMOVE".
Definition QUANTITY : string := "QUANTITY".
Definition SUBMIT : string := "SUBMIT".
End REDUCER_ACTION_TYPE.

Record ReducerAction : Type := {
  type : string;
  payload : option CartItemType
}.

(** What a call of the reducer ends in: the new state or a thrown
    [Error] with its message. *)
Inductive completion : Type :=
| Return (state : CartStateType)
| Throw (message : string).

Definition reducer (state : CartStateType) (action : ReducerAction) : completion :=
  if (type action =? REDUCER_ACTION_TYPE.ADD)%string then
    match payload action with
    | None => Throw "action.payload missing in ADD action"
    | Some p =>
      let filteredCart :=
        filter (fun item => negb (sku item =? sku p)%string) (cart state) in
      let itemExists :=
        find (fun item => (sku item =? sku p)%string) (cart state) in
      let qty' :=
        match itemExists with
        | Some item => qty item + 1
        | None => 1
        end in
      Return {| cart := filteredCart ++
                  [ {| sku := sku p; name := name p; price := price p; qty := qty' |} ] |}
    end
  else if (type action =? REDUCER_ACTION_TYPE.REMOVE)%string then
    match payload action with
    | None => Throw "action.payload missing in REMOVE action"
    | Some p =>
      let filteredCart :=
        filter (fun item => negb (sku item =? sku p)%string) (cart state) in
      Return {| cart := filteredCart |}
    end
  else if (type action =? REDUCER_ACTION_TYPE.QUANTITY)%string then
    match payload action with
    | None => Throw "action.payload missing in QUANTITY action"
    | Some p =>
      let itemExists :=
        find (fun item => (sku item =? sku p)%string) (cart state) in
      match itemExists with
      | None => Throw "Item must exist in order to update quantity"
      | Some item =>
        let updatedItem :=
          {| sku := sku item; name := name item; price := price item; qty := qty p |} in
        let filteredCart :=
          filter (fun i => negb (sku i =? sku p)%string) (cart state) in
        Return {| cart := filteredCart ++ [updatedItem] |}
      end
    end
  else if (type action =? REDUCER_ACTION_TYPE.SUBMIT)%string then
    Return {| cart := [] |}
  else Throw "Unidentified reducer action type".

(** The value the hook returns ([dispatch] and [REDUCER_ACTIONS] apart). *)
Module UseCartContextType.
Record t : Type := {
  totalItems : Z;
  totalPrice : string;
  cart : list CartItemType
}.
End UseCartContextType.

(** The function given to [state.cart.sort]. *)
Definition compareBySku (a b : CartItemType) : number :=
  let itemA := Number (slice_from_end 4 (sku a)) in
  let itemB := Number (slice_from_end 4 (sku b)) in
  sub itemA itemB.

(** One run of the hook on the state React holds.  [sort] works in place on
    the array [state.cart] and returns that array: the state after the run
    holds the sorted array, and the [cart] of the value is the same array. *)
Definition useCartContext (state : CartStateType)
  : UseCartContextType.t * CartStateType :=
  let totalItems :=
    fold_left (fun previousValue cartItem => previousValue + qty cartItem)
              (cart state) 0 in
  let totalPrice :=
    Intl.format
      (fold_left (fun previousValue cartItem =>
                    add previousValue (mul (number_of_Z (qty cartItem)) (price cartItem)))
                 (cart state) pos_zero) in
  let sorted := JSArray.sort compareBySku (cart state) in
  ({| UseCartContextType.totalItems := totalItems;
      UseCartContextType.totalPrice := totalPrice;
      UseCartContextType.cart := sorted |},
   {| cart := sorted |}).

(** [dispatch(action)]: React replaces the state by what the reducer
    returns; when the reducer throws there is nothing to replace it with. *)
Definition dispatch (state : CartStateType) (action : ReducerAction) : CartStateType :=
  match reducer state action with
  | Return state' => state'
  | Throw _ => state
  end.

(** What happens to the state between two moments: an action is dispatched
    or the provider renders, which runs the hook. *)
Inductive event : Type :=
| Dispatch (action : ReducerAction)
| Render.

Definition step (state : CartStateType) (ev : event) : CartStateType :=
  match ev with
  | Dispatch action => dispatch state action
  | Render => snd (useCartContext state)
  end.

Definition run (state : CartStateType) (evs : list event) : CartStateType :=
  fold_left step evs state.

(** ** The catalog: [ProductsProvider.tsx] *)

Module ProductType.
Record t : Type := {
  sku : string;
  name : string;
  price : number
}.
End ProductType.

Definition initState : list ProductType.t :=
  [ {| ProductType.sku := "item0001"; ProductType.name := "Widget";
       ProductType.price := Number "9.99" |};
    {| ProductType.sku := "item0002"; ProductType.name := "Premium Widget";
       ProductType.price := Number "19.99" |};
    {| ProductType.sku := "item0003"; ProductType.name := "Deluxe Widget";
       ProductType.price := Number "29.99" |} ].

(** The value [ProductsProvider] gives to its children. *)
Definition products : list ProductType.t := initState.

(** ** The product view: [Product.tsx] *)

Module Product.

(** The props the two functions below read: [product] and [inCart]. *)
Record PropsType : Type := {
  product : ProductType.t;
  inCart : bool
}.

(** [dispatch({ type: REDUCER_ACTIONS.ADD, payload: { ...product, qty: 1 } })]:
    the action the button dispatches. *)
Definition onAddToCart (product : ProductType.t) : ReducerAction :=
  {| type := REDUCER_ACTION_TYPE.ADD;
     payload := Some {| sku := ProductType.sku product;
                        name := ProductType.name product;
                        price := ProductType.price product;
                        qty := 1 |} |}.

(** The values of the properties of a product. *)
Inductive value : Type :=
| Str (s : string)
| Num (x : number).

(** [Object.keys(product)] and [product[key]]. *)
Definition keys (p : ProductType.t) : list string := ["sku"; "name"; "price"].

Definition get (p : ProductType.t) (key : string) : option value :=
  if (key =? "sku")%string then Some (Str (ProductType.sku p))
  else if (key =? "name")%string then Some (Str (ProductType.name p))
  else if (key =? "price")%string then Some (Num (ProductType.price p))
  else None.

(** [a === b] on such values and on [undefined]. *)
Definition strict_equal (a b : option value) : bool :=
  match a, b with
  | Some (Str s), Some (Str t) => (s =? t)%string
  | Some (Num x), Some (Num y) => SFeqb x y
  | None, None => true
  | _, _ => false
  end.

Definition areProductsEqual (prev next : PropsType) : bool :=
  forallb (fun key => strict_equal (get (product prev) key) (get (product next) key))
          (keys (product prev))
  && Bool.eqb (inCart prev) (inCart next).

End Product.

(** ** The counter: [Counter.tsx]

    [count] starts at [0] and changes by one; like [qty] it is kept as a
    [Z]. *)

Module Counter.

Record state : Type := {
  count : Z;
  text : string
}.

Definition initState : state := {| count := 0; text := "" |}.

(** The members of the [const enum], which are the numbers 0, 1 and 2. *)
Module REDUCER_ACTION_TYPE.
Definition INCREMENT : Z := 0.
Definition DECREMENT : Z := 1.
Definition NEW_INPUT : Z := 2.
End REDUCER_ACTION_TYPE.

Record ReducerAction : Type := {
  type : Z;
  payload : option string
}.

Inductive completion : Type :=
| Return (s : state)
| Throw (message : string).

Definition reducer (s : state) (action : ReducerAction) : completion :=
  if type action =? REDUCER_ACTION_TYPE.DECREMENT then
    Return {| count := count s - 1; text := text s |}
  else if type action =? REDUCER_ACTION_TYPE.INCREMENT then
    Return {| count := count s + 1; text := text s |}
  else if type action =? REDUCER_ACTION_TYPE.NEW_INPUT then
    Return {| count := count s;
              text := match payload action with
                      | Some v => v
                      | None => ""
                      end |}
  else Throw "".

Definition dispatch (s : state) (action : ReducerAction) : state :=
  match reducer s action with
  | Return s' => s'
  | Throw _ => s
  end.

(** The actions the two buttons and the input dispatch. *)
Definition increment : ReducerAction :=
  {| type := REDUCER_ACTION_TYPE.INCREMENT; payload := None |}.
Definition decrement : ReducerAction :=
  {| type := REDUCER_ACTION_TYPE.DECREMENT; payload := None |}.
Definition handleInput (value : string) : ReducerAction :=
  {| type := REDUCER_ACTION_TYPE.NEW_INPUT; payload := Some value |}.

Definition run (s : state) (actions : list ReducerAction) : state :=
  fold_left dispatch actions s.

End Counter.

(** ** Definitions the properties are stated with *)

(** The order of two elements by an integer key. *)
Definition key_le {A : Type} (key : A -> Z) (x y : A) : Prop := key x <= key y.

(** The skus of the lines of a cart, in the order of the cart. *)
Definition skus (l : list CartItemType) : list string := map sku l.

(** The integer obtained from the last four characters of a sku. *)
Definition suffix_integer (s : string) : option Z :=
  integer_value (Number (slice_from_end 4 s)).

(** The last four characters of the sku of the line give an integer. *)
Definition has_suffix_integer (i : CartItemType) : Prop :=
  suffix_integer (sku i) <> None.

(** That integer, [0] when there is none. *)
Definition suffix_key (i : CartItemType) : Z :=
  match suffix_integer (sku i) with
  | Some z => z
  | None => 0
  end.

(** The decimal digit [k] as a character, and a string of four of them. *)
Definition decimal_digit (k : Z) : ascii := ascii_of_N (Z.to_N (48 + k)).
Definition four_digits (a b c d : Z) : string :=
  String (decimal_digit a) (String (decimal_digit b)
    (String (decimal_digit c) (String (decimal_digit d) EmptyString))).

(** The ten digits. *)
Definition digit_values : list Z := [0; 1; 2; 3; 4; 5; 6; 7; 8; 9].

(** [Number] reads the four digits as the integer they write in base ten. *)
Definition four_digits_check (a b c d : Z) : bool :=
  match integer_value (Number (four_digits a b c d)) with
  | Some z => z =? 1000 * a + 100 * b + 10 * c + d
  | None => false
  end.

(** Actions as the views build them. *)
Definition add_action (p : CartItemType) : ReducerAction :=
  {| type := REDUCER_ACTION_TYPE.ADD; payload := Some p |}.
Definition remove_action (p : CartItemType) : ReducerAction :=
  {| type := REDUCER_ACTION_TYPE.REMOVE; payload := Some p |}.
Definition quantity_action (p : CartItemType) : ReducerAction :=
  {| type := REDUCER_ACTION_TYPE.QUANTITY; payload := Some p |}.
Definition submit_action : ReducerAction :=
  {| type := REDUCER_ACTION_TYPE.SUBMIT; payload := None |}.

(** The three products of the catalog as cart lines. *)
Definition widget (q : Z) : CartItemType :=
  {| sku := "item0001"; name := "Widget"; price := Number "9.99"; qty := q |}.
Definition premium_widget (q : Z) : CartItemType :=
  {| sku := "item0002"; name := "Premium Widget"; price := Number "19.99"; qty := q |}.
Definition deluxe_widget (q : Z) : CartItemType :=
  {| sku := "item0003"; name := "Deluxe Widget"; price := Number "29.99"; qty := q |}.

(** ADD of a widget, then QUANTITY of the widget with qty 0. *)
Definition quantity_to_zero : list event :=
  [Dispatch (add_action (widget 1)); Dispatch (quantity_action (widget 0))].

(** An event that is not a QUANTITY action with a payload qty below 1. *)
Definition quantity_at_least_one (ev : event) : Prop :=
  match ev with
  | Dispatch a =>
    type a = REDUCER_ACTION_TYPE.QUANTITY ->
    forall p, payload a = Some p -> 1 <= qty p
  | Render => True
  end.

(** A cart with two lines of suffix 1 and a sku shorter than four
    characters. *)
Definition tied_cart : CartStateType :=
  {| cart := [deluxe_widget 1;
              {| sku := "spare0001"; name := "Spare"; price := Number "1.5"; qty := 4 |};
              widget 2;
              {| sku := "7"; name := "Seven"; price := Number "7"; qty := 1 |}] |}.

(** Three additions whose prices do not add up to the same binary64 number
    in every order, and the cart they leave. *)
Definition costly_adds : list event :=
  [Dispatch (add_action {| sku := "item0003"; name := "Deluxe Widget";
                           price := Number "10000000000000000"; qty := 1 |});
   Dispatch (add_action {| sku := "item0001"; name := "Widget";
                           price := Number "1"; qty := 1 |});
   Dispatch (add_action {| sku := "item0002"; name := "Premium Widget";
                           price := Number "1"; qty := 1 |})].

Definition costly_cart : CartStateType :=
  {| cart := [ {| sku := "item0003"; name := "Deluxe Widget";
                  price := Number "10000000000000000"; qty := 1 |};
               {| sku := "item0001"; name := "Widget";
                  price := Number "1"; qty := 1 |};
               {| sku := "item0002"; name := "Premium Widget";
                  price := Number "1"; qty := 1 |} ] |}.

(** ** Definitions the further properties are stated with *)

(** [totalItems] as the hook computes it from a state. *)
Definition totalItems_of (st : CartStateType) : Z :=
  UseCartContextType.totalItems (fst (useCartContext st)).

(** The qty of the first line of sku [s], [0] when there is none. *)
Definition qty_of_sku (s : string) (l : list CartItemType) : Z :=
  match find (fun i => (sku i =? s)%string) l with
  | Some old => qty old
  | None => 0
  end.

(** An event that is not an ADD whose payload sku gives no integer. *)
Definition add_has_suffix_integer (ev : event) : Prop :=
  match ev with
  | Dispatch a =>
    type a = REDUCER_ACTION_TYPE.ADD ->
    forall p, payload a = Some p -> has_suffix_integer p
  | Render => True
  end.

(** The number of actions of type [t] in a list of counter actions. *)
Definition count_type (t : Z) (actions : list Counter.ReducerAction) : Z :=
  Z.of_nat (List.length (filter (fun a => Counter.type a =? t) actions)).

(** A line with the sku, name and price of a product of the catalog. *)
Definition from_catalog (i : CartItemType) : Prop :=
  exists p, In p products /\ sku i = ProductType.sku p /\
            name i = ProductType.name p /\ price i = ProductType.price p.

(** An event that is not an ADD other than the click on a product of the
    catalog. *)
Definition catalog_add (ev : event) : Prop :=
  match ev with
  | Dispatch a =>
    type a = REDUCER_ACTION_TYPE.ADD ->
    exists p, In p products /\ a = Product.onAddToCart p
  | Render => True
  end.

(** * Properties *)

(** ** Lists: [filter], [find] and the skus of a cart *)

Lemma find_none_filter (s : string) (l : list CartItemType) :
  find (fun i => (sku i =? s)%string) l = None ->
  filter (fun i => negb (sku i =? s)%string) l = l.
Proof.
  induction l as [|x l IH]; simpl; [reflexivity|].
  destruct (sku x =? s)%string; [discriminate|].
  intros H. simpl. now rewrite IH.
Qed.

Lemma find_none_iff (s : string) (l : list CartItemType) :
  find (fun i => (sku i =? s)%string) l = None <-> Forall (fun i => sku i <> s) l.
Proof.
  induction l as [|x l IH]; simpl.
  - split; [constructor | reflexivity].
  - destruct (String.eqb_spec (sku x) s) as [E|E].
    + split; [discriminate|]. intros H. inversion H. contradiction.
    + rewrite IH. split.
      * intros H. now constructor.
      * intros H. now inversion H.
Qed.

Lemma skus_filter_notin (s : string) (l : list CartItemType) :
  ~ In s (skus (filter (fun i => negb (sku i =? s)%string) l)).
Proof.
  unfold skus. rewrite in_map_iff. intros [x [E H]].
  apply filter_In in H. destruct H as [_ H].
  rewrite <- E, String.eqb_refl in H. discriminate.
Qed.

Lemma skus_filter_NoDup (f : CartItemType -> bool) (l : list CartItemType) :
  NoDup (skus l) -> NoDup (skus (filter f l)).
Proof.
  unfold skus. induction l as [|x l IH]; simpl; intros H; [constructor|].
  inversion H as [|? ? Hx Hl]; subst.
  destruct (f x); simpl; [constructor|]; auto.
  intros Hin. apply Hx. rewrite in_map_iff in *.
  destruct Hin as [y [E Hy]]. exists y. split; [assumption|].
  now apply filter_In in Hy.
Qed.

Lemma skus_replace_NoDup (l : list CartItemType) (x : CartItemType) :
  NoDup (skus l) ->
  NoDup (skus (filter (fun i => negb (sku i =? sku x)%string) l ++ [x])).
Proof.
  intros H. unfold skus. rewrite map_app. simpl.
  apply NoDup_app.
  - now apply skus_filter_NoDup.
  - constructor; [intros []|constructor].
  - intros a Ha [E|[]]. subst a. now apply (skus_filter_notin (sku x) l).
Qed.

(** ** The sort permutes *)

Section SortPermutation.
Context {A : Type}.
Variable comparefn : A -> A -> number.

Lemma insert_Permutation (x : A) (l : list A) :
  Permutation (x :: l) (JSArray.insert comparefn x l).
Proof.
  induction l as [|y l IH]; simpl; [reflexivity|].
  destruct (gtb_zero _); [|reflexivity].
  rewrite perm_swap. now constructor.
Qed.

Lemma sort_Permutation (l : list A) :
  Permutation l (JSArray.sort comparefn l).
Proof.
  induction l as [|x l IH]; simpl; [reflexivity|].
  rewrite <- insert_Permutation. now constructor.
Qed.
End SortPermutation.

(** ** Reachable states *)

Lemma run_invariant (P : CartStateType -> Prop) (Q : event -> Prop) :
  (forall st ev, P st -> Q ev -> P (step st ev)) ->
  forall evs st, P st -> Forall Q evs -> P (run st evs).
Proof.
  intros Hstep evs. induction evs as [|ev evs IH]; intros st Hst Hq; simpl.
  - exact Hst.
  - inversion Hq; subst. apply IH; auto.
Qed.

(** What the reducer returns, case by case. *)
Lemma reducer_cases (st : CartStateType) (a : ReducerAction) :
  match reducer st a with
  | Return st' =>
    (exists p, payload a = Some p /\ type a = REDUCER_ACTION_TYPE.ADD /\
       cart st' = filter (fun i => negb (sku i =? sku p)%string) (cart st) ++
         [ {| sku := sku p; name := name p; price := price p;
              qty := match find (fun i => (sku i =? sku p)%string) (cart st) with
                     | Some i => qty i + 1
                     | None => 1
                     end |} ])
    \/ (exists p, payload a = Some p /\ type a = REDUCER_ACTION_TYPE.REMOVE /\
       cart st' = filter (fun i => negb (sku i =? sku p)%string) (cart st))
    \/ (exists p old, payload a = Some p /\ type a = REDUCER_ACTION_TYPE.QUANTITY /\
       find (fun i => (sku i =? sku p)%string) (cart st) = Some old /\
       cart st' = filter (fun i => negb (sku i =? sku p)%string) (cart st) ++
         [ {| sku := sku old; name := name old; price := price old; qty := qty p |} ])
    \/ (type a = REDUCER_ACTION_TYPE.SUBMIT /\ cart st' = [])
  | Throw _ => True
  end.
Proof.
  unfold reducer.
  destruct (String.eqb_spec (type a) REDUCER_ACTION_TYPE.ADD) as [E1|E1].
  { destruct (payload a) as [p|]; [|exact I]. left. now exists p. }
  destruct (String.eqb_spec (type a) REDUCER_ACTION_TYPE.REMOVE) as [E2|E2].
  { destruct (payload a) as [p|]; [|exact I]. right; left. now exists p. }
  destruct (String.eqb_spec (type a) REDUCER_ACTION_TYPE.QUANTITY) as [E3|E3].
  { destruct (payload a) as [p|]; [|exact I].
    destruct (find _ (cart st)) as [old|] eqn:F; [|exact I].
    right; right; left. now exists p, old. }
  destruct (String.eqb_spec (type a) REDUCER_ACTION_TYPE.SUBMIT) as [E4|E4].
  { right; right; right. now split. }
  exact I.
Qed.

Lemma find_some_sku (s : string) (l : list CartItemType) (x : CartItemType) :
  find (fun i => (sku i =? s)%string) l = Some x -> In x l /\ sku x = s.
Proof.
  intros H. apply find_some in H. destruct H as [H E].
  split; [assumption|]. now apply String.eqb_eq.
Qed.

(** The skus of a cart stay pairwise distinct through every event. *)
Lemma step_NoDup (st : CartStateType) (ev : event) :
  NoDup (skus (cart st)) -> NoDup (skus (cart (step st ev))).
Proof.
  intros H. destruct ev as [a|]; simpl.
  - unfold dispatch. pose proof (reducer_cases st a) as C.
    destruct (reducer st a) as [st'|]; [|assumption].
    destruct C as [[p [_ [_ E]]]|[[p [_ [_ E]]]|[[p [old [_ [_ [F E]]]]]|[_ E]]]];
      rewrite E.
    + match goal with |- context [filter _ _ ++ [?x]] =>
        apply (skus_replace_NoDup (cart st) x H) end.
    + now apply skus_filter_NoDup.
    + apply find_some_sku in F. destruct F as [_ F].
      match goal with |- context [filter _ _ ++ [?x]] =>
        pose proof (skus_replace_NoDup (cart st) x H) as K end.
      cbn [sku] in K. rewrite F in K |- *. exact K.
    + constructor.
  - unfold skus. eapply Permutation_NoDup; [|exact H].
    apply Permutation_map. apply sort_Permutation.
Qed.

(** C4: in every state reached from the empty cart by dispatched actions
    (of any type, with or without payload) and renders, no two lines of the
    cart have the same sku. *)
Theorem reachable_one_line_per_sku (evs : list event) :
  NoDup (skus (cart (run initCartState evs))).
Proof.
  apply (run_invariant (fun st => NoDup (skus (cart st))) (fun _ => True)).
  - intros st ev H _. now apply step_NoDup.
  - constructor.
  - apply Forall_forall. intros; exact I.
Qed.

(** ** The sign of a difference of two numbers

    [sub x y] of two finite numbers is negative, zero or positive as the
    value of [x] is below, equal to or above the value of [y]: rounding a
    non-zero difference never reaches zero.  Values are compared through
    [scaled], the value times 2^1074, an integer. *)

Module Binary64Facts.

Lemma shr_1_m (mrs : shr_record) :
  0 <= shr_m mrs -> shr_m (shr_1 mrs) = shr_m mrs / 2.
Proof.
  destruct mrs as [m r s]. simpl. intros H.
  destruct m as [|p|p]; [reflexivity| |lia].
  destruct p as [p|p|]; simpl.
  - rewrite Pos2Z.inj_xI. apply Z.div_unique with 1; lia.
  - rewrite Pos2Z.inj_xO. apply Z.div_unique with 0; lia.
  - reflexivity.
Qed.

Lemma pow2_xO (q : positive) : 2 ^ Zpos q~0 = 2 ^ Zpos q * 2 ^ Zpos q.
Proof.
  replace (Zpos q~0) with (Zpos q + Zpos q) by lia.
  apply Z.pow_add_r; lia.
Qed.

Lemma pow2_xI (q : positive) : 2 ^ Zpos q~1 = 2 * (2 ^ Zpos q * 2 ^ Zpos q).
Proof.
  replace (Zpos q~1) with (Z.succ (Zpos q~0)) by lia.
  rewrite Z.pow_succ_r by lia. now rewrite pow2_xO.
Qed.

Lemma iter_shr_1_m (q : positive) :
  forall mrs, 0 <= shr_m mrs ->
  shr_m (iter_pos shr_1 q mrs) = shr_m mrs / 2 ^ Zpos q.
Proof.
  induction q as [q IH|q IH|]; intros mrs H; simpl iter_pos.
  - assert (H1 : 0 <= shr_m (shr_1 mrs)).
    { rewrite shr_1_m by assumption. apply Z.div_pos; lia. }
    assert (H2 : 0 <= shr_m (iter_pos shr_1 q (shr_1 mrs))).
    { rewrite IH by assumption. apply Z.div_pos; lia. }
    rewrite IH, IH, shr_1_m by assumption.
    rewrite !Z.div_div by lia.
    now rewrite pow2_xI.
  - assert (H2 : 0 <= shr_m (iter_pos shr_1 q mrs)).
    { rewrite IH by assumption. apply Z.div_pos; lia. }
    rewrite IH, IH by assumption.
    rewrite Z.div_div by lia.
    now rewrite pow2_xO.
  - now apply shr_1_m.
Qed.

Lemma digits2_pos_le (p : positive) :
  2 ^ (Zpos (digits2_pos p) - 1) <= Zpos p.
Proof.
  induction p as [p IH|p IH|]; simpl digits2_pos.
  - replace (Zpos (Pos.succ (digits2_pos p)) - 1)
      with (Z.succ (Zpos (digits2_pos p) - 1)) by lia.
    rewrite Z.pow_succ_r by lia. lia.
  - replace (Zpos (Pos.succ (digits2_pos p)) - 1)
      with (Z.succ (Zpos (digits2_pos p) - 1)) by lia.
    rewrite Z.pow_succ_r by lia. lia.
  - simpl. lia.
Qed.

Lemma shr_record_of_loc_m (m : Z) (l : location) :
  shr_m (shr_record_of_loc m l) = m.
Proof. destruct l as [|[ | | ]]; reflexivity. Qed.

Lemma shr_fexp_positive (p : positive) (e : Z) (l : location) :
  emin64 <= e ->
  0 < shr_m (fst (shr_fexp prec emax (Zpos p) e l)) /\
  emin64 <= snd (shr_fexp prec emax (Zpos p) e l).
Proof.
  intros He. unfold shr_fexp, shr, fexp. simpl Zdigits2.
  fold emin64.
  pose proof (digits2_pos_le p) as Hd.
  set (d := Zpos (digits2_pos p)) in *.
  destruct (Z.max (d + e - prec) emin64 - e) as [|q|q] eqn:En; simpl fst; simpl snd.
  - rewrite shr_record_of_loc_m. lia.
  - rewrite iter_shr_1_m by (rewrite shr_record_of_loc_m; lia).
    rewrite shr_record_of_loc_m.
    assert (Hq : Zpos q <= d - 1) by (unfold prec in En; lia).
    split; [|lia].
    apply Z.div_str_pos. split; [lia|].
    apply Z.le_trans with (2 ^ (d - 1)); [|assumption].
    apply Z.pow_le_mono_r; lia.
  - rewrite shr_record_of_loc_m. lia.
Qed.

Lemma round_nearest_even_positive (m : Z) (l : location) :
  0 < m -> 0 < round_nearest_even m l.
Proof.
  intros H. destruct l as [|[ | | ]]; simpl; try lia.
  destruct (Z.even m); lia.
Qed.

Lemma binary_round_aux_sign (s : bool) (p : positive) (e : Z) (l : location) :
  emin64 <= e -> has_sign s (binary_round_aux prec emax s (Zpos p) e l).
Proof.
  intros He. unfold binary_round_aux.
  destruct (shr_fexp_positive p e l He) as [H1 H2].
  destruct (shr_fexp prec emax (Zpos p) e l) as [mrs' e'].
  simpl in H1, H2.
  pose proof (round_nearest_even_positive _ (loc_of_shr_record mrs') H1) as H3.
  destruct (round_nearest_even (shr_m mrs') (loc_of_shr_record mrs')) as [|r|r];
    try lia.
  destruct (shr_fexp_positive r e' loc_Exact H2) as [H4 _].
  destruct (shr_fexp prec emax (Zpos r) e' loc_Exact) as [mrs'' e''].
  simpl in H4.
  destruct (shr_m mrs'') as [|m|m]; try lia.
  destruct (e'' <=? emax - prec).
  - left. now exists m, e''.
  - now right.
Qed.

Lemma iter_xO_value (d m : positive) :
  Zpos (Pos.iter xO m d) = Zpos m * 2 ^ Zpos d.
Proof.
  revert m. induction d as [|d IH] using Pos.peano_ind; intros m.
  - simpl. lia.
  - rewrite Pos.iter_succ, Pos2Z.inj_xO, IH, Pos2Z.inj_succ, Z.pow_succ_r by lia.
    lia.
Qed.

Lemma shl_align_value (m : positive) (e e' : Z) :
  e' <= e ->
  Zpos (fst (shl_align m e e')) = Zpos m * 2 ^ (e - e').
Proof.
  intros H. unfold shl_align.
  destruct (e' - e) as [|d|d] eqn:E; simpl fst.
  - replace (e - e') with 0 by lia. simpl. lia.
  - lia.
  - rewrite iter_xO_value. f_equal. f_equal. lia.
Qed.

Lemma shl_align_exponent (m : positive) (e e' : Z) :
  emin64 <= e -> emin64 <= e' -> emin64 <= snd (shl_align m e e').
Proof.
  intros H H'. unfold shl_align. now destruct (e' - e).
Qed.

Lemma binary_round_sign (s : bool) (m : positive) (e : Z) :
  emin64 <= e -> has_sign s (binary_round prec emax s m e).
Proof.
  intros He. unfold binary_round.
  pose proof (shl_align_exponent m e
                (fexp prec emax (Zpos (digits2_pos m) + e)) He) as H.
  destruct (shl_align m e _) as [mz ez]. simpl in H.
  apply binary_round_aux_sign. apply H.
  unfold fexp. fold emin64. lia.
Qed.

Lemma has_sign_ltb_zero (s : bool) (x : number) :
  has_sign s x -> ltb_zero x = s /\ gtb_zero x = negb s.
Proof.
  intros [[m [e E]]|E]; subst x; destruct s; split; reflexivity.
Qed.

Lemma cond_Zopp_mul (s : bool) (a k : Z) :
  cond_Zopp s (a * k) = cond_Zopp s a * k.
Proof. destruct s; simpl; lia. Qed.

Lemma scaled_aligned (s : bool) (m : positive) (e ez : Z) :
  emin64 <= ez -> ez <= e ->
  scaled (S754_finite s m e) =
  cond_Zopp s (Zpos (fst (shl_align m e ez))) * 2 ^ (ez - emin64).
Proof.
  intros H1 H2. unfold scaled. rewrite shl_align_value by assumption.
  rewrite <- cond_Zopp_mul. f_equal. rewrite <- Z.mul_assoc. f_equal.
  rewrite <- Z.pow_add_r by lia. f_equal. lia.
Qed.

(** The sign of [x - y] is the order of the values of [x] and [y]. *)
Lemma sub_sign (x y : number) :
  is_finite x = true -> is_finite y = true ->
  ltb_zero (sub x y) = (scaled x <? scaled y) /\
  gtb_zero (sub x y) = (scaled y <? scaled x).
Proof.
  destruct x as [sx|sx| |sx mx ex], y as [sy|sy| |sy my ey];
    try discriminate; intros Hx Hy; simpl in Hx, Hy.
  - destruct sx, sy; split; reflexivity.
  - apply Z.leb_le in Hy.
    assert (0 < Zpos my * 2 ^ (ey - emin64)).
    { apply Z.mul_pos_pos; [lia|]. apply Z.pow_pos_nonneg; lia. }
    unfold sub, SFsub, scaled.
    destruct (has_sign_ltb_zero (negb sy) (S754_finite (negb sy) my ey)) as [L G];
      [left; now exists my, ey|].
    rewrite L, G.
    destruct sy; unfold cond_Zopp, negb; split; symmetry;
      first [apply Z.ltb_lt; lia | apply Z.ltb_ge; lia].
  - apply Z.leb_le in Hx.
    assert (0 < Zpos mx * 2 ^ (ex - emin64)).
    { apply Z.mul_pos_pos; [lia|]. apply Z.pow_pos_nonneg; lia. }
    unfold sub, SFsub, scaled.
    destruct (has_sign_ltb_zero sx (S754_finite sx mx ex)) as [L G];
      [left; now exists mx, ex|].
    rewrite L, G.
    destruct sx; unfold cond_Zopp, negb; split; symmetry;
      first [apply Z.ltb_lt; lia | apply Z.ltb_ge; lia].
  - apply Z.leb_le in Hx, Hy.
    unfold sub, SFsub.
    set (ez := Z.min ex ey).
    assert (Hz : emin64 <= ez) by (unfold ez; lia).
    rewrite (scaled_aligned sx mx ex ez), (scaled_aligned sy my ey ez)
      by (unfold ez; lia).
    set (a := cond_Zopp sx (Zpos (fst (shl_align mx ex ez)))).
    set (b := cond_Zopp sy (Zpos (fst (shl_align my ey ez)))).
    assert (Hk : 0 < 2 ^ (ez - emin64)) by (apply Z.pow_pos_nonneg; lia).
    set (k := 2 ^ (ez - emin64)) in *.
    unfold binary_normalize.
    destruct (a - b) as [|d|d] eqn:D.
    + split; symmetry; apply Z.ltb_ge; simpl; nia.
    + destruct (has_sign_ltb_zero _ _ (binary_round_sign false d ez Hz)) as [L G].
      rewrite L, G. split; symmetry; [apply Z.ltb_ge|apply Z.ltb_lt]; nia.
    + destruct (has_sign_ltb_zero _ _ (binary_round_sign true d ez Hz)) as [L G].
      rewrite L, G. split; symmetry; [apply Z.ltb_lt|apply Z.ltb_ge]; nia.
Qed.

End Binary64Facts.

(** ** The sort on elements whose comparisons follow an integer key *)

Section SortByKey.
Context {A : Type}.
Variable comparefn : A -> A -> number.
Variable key : A -> Z.
Variable good : A -> Prop.
Hypothesis compare_key :
  forall x y, good x -> good y ->
  gtb_zero (JSArray.SortCompare comparefn x y) = (key y <? key x).

Lemma insert_Forall (P : A -> Prop) (x : A) (l : list A) :
  P x -> Forall P l -> Forall P (JSArray.insert comparefn x l).
Proof.
  intros Hx Hl. eapply Permutation_Forall.
  - apply insert_Permutation.
  - now constructor.
Qed.

Lemma sort_Forall (P : A -> Prop) (l : list A) :
  Forall P l -> Forall P (JSArray.sort comparefn l).
Proof.
  intros H. eapply Permutation_Forall; [apply sort_Permutation|exact H].
Qed.

Lemma insert_sorted (x : A) (l : list A) :
  good x -> Forall good l ->
  StronglySorted (key_le key) l -> StronglySorted (key_le key) (JSArray.insert comparefn x l).
Proof.
  intros Hx Hl Hs. induction l as [|y l IH]; simpl.
  - repeat constructor.
  - inversion Hl as [|? ? Hy Hl']; subst.
    inversion Hs as [|? ? Hs' Hall]; subst.
    rewrite compare_key by assumption.
    destruct (Z.ltb_spec (key y) (key x)) as [L|L].
    + constructor; [now apply IH|].
      apply insert_Forall; [unfold key_le; lia|assumption].
    + constructor; [assumption|].
      constructor; [exact L|].
      eapply Forall_impl; [|exact Hall].
      unfold key_le. intros a Ha. lia.
Qed.

Lemma sort_sorted (l : list A) :
  Forall good l -> StronglySorted (key_le key) (JSArray.sort comparefn l).
Proof.
  induction l as [|x l IH]; simpl; intros H; [constructor|].
  inversion H; subst.
  apply insert_sorted; auto. now apply sort_Forall.
Qed.

(** Elements of equal key keep their order. *)
Lemma insert_stable (z : Z) (x : A) (l : list A) :
  good x -> Forall good l ->
  filter (fun a => key a =? z) (JSArray.insert comparefn x l) =
  filter (fun a => key a =? z) (x :: l).
Proof.
  intros Hx Hl. induction l as [|y l IH]; [reflexivity|].
  inversion Hl as [|? ? Hy Hl']; subst.
  simpl JSArray.insert. rewrite compare_key by assumption.
  destruct (Z.ltb_spec (key y) (key x)) as [L|L]; [|reflexivity].
  simpl filter in *. rewrite (IH Hl').
  destruct (Z.eqb_spec (key x) z), (Z.eqb_spec (key y) z);
    try reflexivity; lia.
Qed.

Lemma sort_stable (z : Z) (l : list A) :
  Forall good l ->
  filter (fun a => key a =? z) (JSArray.sort comparefn l) =
  filter (fun a => key a =? z) l.
Proof.
  induction l as [|x l IH]; intros H; [reflexivity|].
  inversion H; subst. simpl JSArray.sort.
  rewrite insert_stable by (auto using sort_Forall).
  simpl. now rewrite IH.
Qed.

(** Sorting a sorted array changes nothing. *)
Lemma sort_sorted_id (l : list A) :
  Forall good l -> StronglySorted (key_le key) l -> JSArray.sort comparefn l = l.
Proof.
  induction l as [|x l IH]; intros Hg Hs; [reflexivity|].
  inversion Hg; subst. inversion Hs as [|? ? Hs' Hall]; subst.
  simpl. rewrite IH by assumption.
  destruct l as [|y l]; [reflexivity|]. simpl.
  inversion Hall; subst. inversion H2; subst.
  rewrite compare_key by assumption.
  destruct (Z.ltb_spec (key y) (key x)); [unfold key_le in *; lia|reflexivity].
Qed.
End SortByKey.

(** ** The sort key of a cart line *)

Import Binary64Facts.

Lemma integer_value_scaled (x : number) (z : Z) :
  integer_value x = Some z ->
  is_finite x = true /\ scaled x = z * 2 ^ (- emin64).
Proof.
  assert (Hm : emin64 <= 0) by (vm_compute; discriminate).
  destruct x as [s|s| |s m e]; unfold integer_value, scaled, is_finite;
    try discriminate.
  - intros E. injection E as <-. now split.
  - destruct (Z.leb_spec emin64 e) as [He|He]; [|discriminate].
    intros H. split; [reflexivity|].
    destruct (Z.leb_spec 0 e) as [H0|H0].
    + assert (E : z = cond_Zopp s (Zpos m * 2 ^ e)) by congruence.
      rewrite E, <- cond_Zopp_mul. f_equal.
      replace (e - emin64) with (e + - emin64) by lia.
      rewrite Z.pow_add_r by lia. ring.
    + destruct (Z.eqb_spec (Zpos m mod 2 ^ (- e)) 0) as [D|D]; [|discriminate].
      assert (E : z = cond_Zopp s (Zpos m / 2 ^ (- e))) by congruence.
      rewrite E, <- cond_Zopp_mul. f_equal.
      replace (- emin64) with (- e + (e - emin64)) by lia.
      rewrite Z.pow_add_r by lia.
      assert (Hp : 0 < 2 ^ (- e)) by (apply Z.pow_pos_nonneg; lia).
      rewrite Z.mul_assoc. f_equal.
      rewrite Z.mul_comm.
      apply Z_div_exact_full_2; [lia|assumption].
Qed.

Lemma gtb_zero_SortCompare {A : Type} (f : A -> A -> number) (x y : A) :
  gtb_zero (JSArray.SortCompare f x y) = gtb_zero (f x y).
Proof.
  unfold JSArray.SortCompare. now destruct (f x y).
Qed.

Lemma compareBySku_key (x y : CartItemType) :
  has_suffix_integer x -> has_suffix_integer y ->
  gtb_zero (JSArray.SortCompare compareBySku x y) = (suffix_key y <? suffix_key x).
Proof.
  unfold has_suffix_integer, suffix_key, suffix_integer.
  intros Hx Hy. rewrite gtb_zero_SortCompare. unfold compareBySku.
  destruct (integer_value (Number (slice_from_end 4 (sku x)))) as [zx|] eqn:Ex;
    [|contradiction].
  destruct (integer_value (Number (slice_from_end 4 (sku y)))) as [zy|] eqn:Ey;
    [|contradiction].
  apply integer_value_scaled in Ex, Ey.
  destruct Ex as [Fx Sx], Ey as [Fy Sy].
  destruct (sub_sign _ _ Fx Fy) as [_ G]. rewrite G, Sx, Sy.
  assert (Hp : 0 < 2 ^ (- emin64)) by (vm_compute; reflexivity).
  destruct (Z.ltb_spec zy zx), (Z.ltb_spec (zy * 2 ^ (- emin64)) (zx * 2 ^ (- emin64)));
    try reflexivity; nia.
Qed.

(** A sku that ends in four decimal digits has the integer they write. *)
Lemma slice_from_end_four (pre : string) (a b c d : Z) :
  slice_from_end 4 (pre ++ four_digits a b c d) = four_digits a b c d.
Proof.
  assert (L : forall q, String.length (q ++ four_digits a b c d)
                        = (String.length q + 4)%nat).
  { induction q as [|x q IH]; simpl; [reflexivity|]. now rewrite IH. }
  unfold slice_from_end. induction pre as [|x pre IH].
  - reflexivity.
  - rewrite L in *. simpl String.length.
    replace (S (String.length pre) + 4 - 4)%nat with (S (String.length pre)) by lia.
    replace (String.length pre + 4 - 4)%nat with (String.length pre) in IH by lia.
    exact IH.
Qed.

Lemma forallb_digits (f : Z -> bool) :
  forallb f digit_values = true -> forall k, 0 <= k < 10 -> f k = true.
Proof.
  intros H k Hk. apply (proj1 (forallb_forall f digit_values) H).
  assert (E : k = 0 \/ k = 1 \/ k = 2 \/ k = 3 \/ k = 4 \/
              k = 5 \/ k = 6 \/ k = 7 \/ k = 8 \/ k = 9) by lia.
  unfold digit_values. simpl.
  repeat (destruct E as [E|E]; [subst k; tauto|]). subst k; tauto.
Qed.

Lemma four_digits_checked :
  forallb (fun a => forallb (fun b => forallb (fun c => forallb (fun d =>
    four_digits_check a b c d)
    digit_values) digit_values) digit_values) digit_values = true.
Proof. vm_compute. reflexivity. Qed.

Lemma four_digits_integer (a b c d : Z) :
  0 <= a < 10 -> 0 <= b < 10 -> 0 <= c < 10 -> 0 <= d < 10 ->
  integer_value (Number (four_digits a b c d)) =
  Some (1000 * a + 100 * b + 10 * c + d).
Proof.
  intros Ha Hb Hc Hd.
  pose proof (forallb_digits _ four_digits_checked a Ha) as K1. cbv beta in K1.
  pose proof (forallb_digits _ K1 b Hb) as K2. cbv beta in K2.
  pose proof (forallb_digits _ K2 c Hc) as K3. cbv beta in K3.
  pose proof (forallb_digits _ K3 d Hd) as K. cbv beta in K.
  unfold four_digits_check in K.
  destruct (integer_value (Number (four_digits a b c d))) as [z|].
  - apply Z.eqb_eq in K. rewrite K. reflexivity.
  - discriminate K.
Qed.

Lemma suffix_integer_decimal (pre : string) (a b c d : Z) :
  0 <= a < 10 -> 0 <= b < 10 -> 0 <= c < 10 -> 0 <= d < 10 ->
  suffix_integer (pre ++ four_digits a b c d) =
  Some (1000 * a + 100 * b + 10 * c + d).
Proof.
  intros. unfold suffix_integer. rewrite slice_from_end_four.
  now apply four_digits_integer.
Qed.

(** ** Two runs of the hook in a row *)



(** The [cart] of the value is the array of the state. *)
Lemma hook_cart_is_state_cart (st : CartStateType) :
  UseCartContextType.cart (fst (useCartContext st)) = cart (snd (useCartContext st)).
Proof. reflexivity. Qed.

(** The state a run of the hook leaves holds the lines it held before. *)
Lemma hook_run_permutes_state (st : CartStateType) :
  Permutation (cart st) (cart (snd (useCartContext st))).
Proof. apply sort_Permutation. Qed.

(** ** The claims *)

(** *** C1 *)

(** C1 (the code departs from it): running the hook on the cart that holds
    item0002 before item0001, the state reached by adding the two in that
    order, leaves the state with item0001 before item0002: [sort] has
    reordered the array of the state. *)
Theorem hook_run_reorders_state :
  let st := run initCartState
              [Dispatch (add_action (premium_widget 1));
               Dispatch (add_action (widget 1))] in
  cart st = [premium_widget 1; widget 1] /\
  cart (snd (useCartContext st)) = [widget 1; premium_widget 1] /\
  snd (useCartContext st) <> st.
Proof.
  vm_compute. repeat split. discriminate.
Qed.

(** *** C2 *)

(** C2, as stated, fails: after ADD and then QUANTITY with qty 0 the cart
    holds a line whose qty is 0. *)
Lemma quantity_below_one_reachable :
  cart (run initCartState quantity_to_zero) = [widget 0] /\
  ~ Forall (fun i => 1 <= qty i) (cart (run initCartState quantity_to_zero)).
Proof.
  split; [reflexivity|].
  intros H. vm_compute in H. inversion H as [|? ? Hq _]; subst.
  vm_compute in Hq. now apply Hq.
Qed.

Lemma Forall_filter_keep {A : Type} (P : A -> Prop) (f : A -> bool) (l : list A) :
  Forall P l -> Forall P (filter f l).
Proof.
  rewrite !Forall_forall. intros H x Hx. apply H.
  now apply filter_In in Hx.
Qed.

(** C2, amended: every line has qty >= 1 in every state reached from the
    empty cart by dispatches and renders in which each QUANTITY action
    carries a qty >= 1. *)
Theorem reachable_qty_at_least_one (evs : list event) :
  Forall quantity_at_least_one evs ->
  Forall (fun i => 1 <= qty i) (cart (run initCartState evs)).
Proof.
  apply (run_invariant (fun st => Forall (fun i => 1 <= qty i) (cart st))
                       quantity_at_least_one); [|constructor].
  intros st ev H Q. destruct ev as [a|]; simpl in *.
  - unfold dispatch. pose proof (reducer_cases st a) as C.
    destruct (reducer st a) as [st'|]; [|assumption].
    destruct C as [[p [_ [_ E]]]|[[p [_ [_ E]]]|[[p [old [Hp [Ht [F E]]]]]|[_ E]]]];
      rewrite E.
    + apply Forall_app. split; [now apply Forall_filter_keep|].
      constructor; [|constructor]. simpl.
      destruct (find _ (cart st)) as [i|] eqn:F; [|lia].
      apply find_some in F. destruct F as [F _].
      rewrite Forall_forall in H. specialize (H i F). lia.
    + now apply Forall_filter_keep.
    + apply Forall_app. split; [now apply Forall_filter_keep|].
      constructor; [|constructor]. simpl. now apply (Q Ht p).
    + constructor.
  - eapply Permutation_Forall; [apply sort_Permutation|exact H].
Qed.

Lemma reachable_qty_at_least_one_witness :
  let evs := [Dispatch (add_action (deluxe_widget 1));
              Dispatch submit_action;
              Dispatch (add_action (widget 1));
              Dispatch (add_action (premium_widget 1));
              Render;
              Dispatch (quantity_action (widget 3));
              Dispatch (remove_action (premium_widget 1));
              Dispatch (add_action (widget 1))] in
  Forall quantity_at_least_one evs /\
  Forall (fun i => 1 <= qty i) (cart (run initCartState evs)).
Proof.
  intros evs.
  assert (H : Forall quantity_at_least_one evs).
  { repeat constructor; simpl; try discriminate.
    intros _ p E. injection E as <-. simpl. lia. }
  split; [exact H|].
  apply (reachable_qty_at_least_one evs H).
Defined.

(** *** C3 *)

Lemma dispatch_add_single (st : CartStateType) (line p : CartItemType) :
  cart st = [line] -> sku line = sku p ->
  dispatch st (add_action p) =
  {| cart := [ {| sku := sku p; name := name p; price := price p;
                  qty := qty line + 1 |} ] |}.
Proof.
  intros E S. unfold dispatch, reducer. simpl. rewrite E. simpl.
  rewrite S, String.eqb_refl. reflexivity.
Qed.

Lemma run_add_single (s : string) (ps : list CartItemType) :
  Forall (fun p => sku p = s) ps ->
  forall st line, cart st = [line] -> sku line = s ->
  exists line', cart (run st (map (fun p => Dispatch (add_action p)) ps)) = [line'] /\
    sku line' = s /\ qty line' = qty line + Z.of_nat (List.length ps).
Proof.
  induction 1 as [|p ps Hp Hps IH]; intros st line E S.
  - exists line. simpl. repeat split; [assumption..|lia].
  - simpl map. simpl run. unfold run in IH |- *. simpl fold_left.
    rewrite (dispatch_add_single st line p E) by congruence.
    set (line1 := {| sku := sku p; name := name p; price := price p;
                     qty := qty line + 1 |}).
    destruct (IH {| cart := [line1] |} line1 eq_refl Hp) as [line' [E' [S' Q']]].
    exists line'. repeat split; [exact E'|exact S'|].
    rewrite Q'. unfold line1. cbn [qty List.length]. lia.
Qed.

(** C3: n >= 1 ADD actions that carry the same sku, each with a payload,
    dispatched from the empty cart, leave a cart of exactly one line; its
    sku is that sku and its qty is n. *)
Theorem repeated_add_counts (n : nat) (s : string) (ps : list CartItemType) :
  (1 <= n)%nat -> List.length ps = n -> Forall (fun p => sku p = s) ps ->
  exists line,
    cart (run initCartState (map (fun p => Dispatch (add_action p)) ps)) = [line] /\
    sku line = s /\ qty line = Z.of_nat n.
Proof.
  intros Hn Hl Hs. destruct ps as [|p ps]; [simpl in Hl; lia|].
  inversion Hs as [|? ? Hp Hps]; subst.
  simpl map. unfold run. simpl fold_left.
  set (line1 := {| sku := sku p; name := name p; price := price p; qty := 1 |}).
  change (dispatch initCartState (add_action p)) with {| cart := [line1] |}.
  destruct (run_add_single (sku p) ps Hps {| cart := [line1] |} line1 eq_refl eq_refl)
    as [line' [E' [S' Q']]].
  exists line'. repeat split; [exact E'|exact S'|].
  rewrite Q'. unfold line1. cbn [qty List.length] in *. lia.
Qed.

Lemma repeated_add_counts_witness :
  exists line,
    cart (run initCartState
            (map (fun p => Dispatch (add_action p))
                 [widget 1; widget 1; widget 7])) = [line] /\
    sku line = "item0001" /\ qty line = 3.
Proof.
  apply (repeated_add_counts 3 "item0001" [widget 1; widget 1; widget 7]).
  - lia.
  - reflexivity.
  - repeat constructor.
Defined.

(** *** C4 is [reachable_one_line_per_sku] above. *)

(** *** C5 *)

(** C5: when the last four characters of every sku give an integer, the
    [cart] the hook returns holds the lines of the state, in ascending
    order of that integer, lines of equal integer in the order they had in
    the state.  In particular, after ADD of item0003, item0001 and item0002
    in that order, whatever their names, prices and payload qty, the
    returned order is item0001, item0002, item0003. *)
Theorem display_order_sorted_stable :
  (forall st : CartStateType,
     Forall has_suffix_integer (cart st) ->
     let sorted := UseCartContextType.cart (fst (useCartContext st)) in
     Permutation (cart st) sorted /\
     StronglySorted (key_le suffix_key) sorted /\
     forall z, filter (fun i => suffix_key i =? z) sorted =
               filter (fun i => suffix_key i =? z) (cart st))
  /\
  (forall (n3 n1 n2 : string) (p3 p1 p2 : number) (q3 q1 q2 : Z),
     let added :=
       run initCartState
         [Dispatch (add_action {| sku := "item0003"; name := n3; price := p3; qty := q3 |});
          Dispatch (add_action {| sku := "item0001"; name := n1; price := p1; qty := q1 |});
          Dispatch (add_action {| sku := "item0002"; name := n2; price := p2; qty := q2 |})] in
     skus (cart added) = ["item0003"; "item0001"; "item0002"] /\
     skus (UseCartContextType.cart (fst (useCartContext added))) =
       ["item0001"; "item0002"; "item0003"]).
Proof.
  split.
  - intros st H. simpl. repeat split.
    + apply sort_Permutation.
    + apply (sort_sorted compareBySku suffix_key has_suffix_integer
               compareBySku_key _ H).
    + intros z.
      apply (sort_stable compareBySku suffix_key has_suffix_integer
               compareBySku_key z _ H).
  - intros. vm_compute. split; reflexivity.
Qed.

Lemma display_order_sorted_stable_witness :
  Forall has_suffix_integer (cart tied_cart) /\
  let sorted := UseCartContextType.cart (fst (useCartContext tied_cart)) in
  Permutation (cart tied_cart) sorted /\
  StronglySorted (key_le suffix_key) sorted /\
  forall z, filter (fun i => suffix_key i =? z) sorted =
            filter (fun i => suffix_key i =? z) (cart tied_cart).
Proof.
  assert (H : Forall has_suffix_integer (cart tied_cart)).
  { repeat constructor; vm_compute; discriminate. }
  split; [exact H|].
  apply (proj1 display_order_sorted_stable tied_cart H).
Defined.

(** *** C6 *)

(** C6: a QUANTITY action with a payload whose sku is the sku of no line
    throws 'Item must exist in order to update quantity' (the error the
    specification calls NotFoundError), and the state after the dispatch is
    the state before it. *)
Theorem quantity_absent_sku_throws (st : CartStateType) (p : CartItemType) :
  Forall (fun i => sku i <> sku p) (cart st) ->
  reducer st (quantity_action p) =
    Throw "Item must exist in order to update quantity" /\
  dispatch st (quantity_action p) = st.
Proof.
  intros H. apply find_none_iff in H.
  unfold dispatch, reducer. simpl. now rewrite H.
Qed.

Lemma quantity_absent_sku_throws_witness :
  let st := {| cart := [widget 2; premium_widget 1] |} in
  Forall (fun i => sku i <> sku (deluxe_widget 5)) (cart st) /\
  reducer st (quantity_action (deluxe_widget 5)) =
    Throw "Item must exist in order to update quantity" /\
  dispatch st (quantity_action (deluxe_widget 5)) = st.
Proof.
  intros st.
  assert (H : Forall (fun i => sku i <> sku (deluxe_widget 5)) (cart st)).
  { repeat constructor; simpl; discriminate. }
  split; [exact H|].
  apply (quantity_absent_sku_throws st (deluxe_widget 5) H).
Defined.

(** *** C7 *)

(** C7: an action whose type is none of ADD, REMOVE, QUANTITY and SUBMIT
    throws 'Unidentified reducer action type' (the error the specification
    calls UnrecognizedActionError), and the state after the dispatch is the
    state before it. *)
Theorem unknown_type_throws (st : CartStateType) (a : ReducerAction) :
  type a <> REDUCER_ACTION_TYPE.ADD ->
  type a <> REDUCER_ACTION_TYPE.REMOVE ->
  type a <> REDUCER_ACTION_TYPE.QUANTITY ->
  type a <> REDUCER_ACTION_TYPE.SUBMIT ->
  reducer st a = Throw "Unidentified reducer action type" /\
  dispatch st a = st.
Proof.
  intros H1 H2 H3 H4. unfold dispatch, reducer.
  apply String.eqb_neq in H1, H2, H3, H4.
  now rewrite H1, H2, H3, H4.
Qed.

Lemma unknown_type_throws_witness :
  let st := {| cart := [widget 2] |} in
  let a := {| type := "UNKNOWN"; payload := Some (widget 1) |} in
  reducer st a = Throw "Unidentified reducer action type" /\
  dispatch st a = st.
Proof.
  intros st a.
  apply (unknown_type_throws st a); simpl; discriminate.
Defined.

(** *** C8 *)

(** C8 (the code departs from it): on the cart left by ADD of item0003 at
    price 10000000000000000, then item0001 and item0002 at price 1, two
    runs of the hook with no dispatch between them return different
    [totalPrice]: the first run adds the prices in the order of the state,
    the second in the order the first run sorted the state into. *)
Theorem second_read_differs :
  let first := useCartContext costly_cart in
  let second := useCartContext (snd first) in
  run initCartState costly_adds = costly_cart /\
  UseCartContextType.totalPrice (fst first) = "$10,000,000,000,000,000.00" /\
  UseCartContextType.totalPrice (fst second) = "$10,000,000,000,000,002.00" /\
  fst first <> fst second.
Proof.
  vm_compute. repeat split. discriminate.
Qed.

(** *** C9 *)

(** C9: for the cart of item0001 at qty 2 and price 9.99 and item0002 at
    qty 1 and price 19.99, whatever the names, [totalItems] is 3 and
    [totalPrice] is "$39.97". *)
Theorem totals_of_two_lines (n1 n2 : string) :
  let st := {| cart := [ {| sku := "item0001"; name := n1;
                            price := Number "9.99"; qty := 2 |};
                         {| sku := "item0002"; name := n2;
                            price := Number "19.99"; qty := 1 |} ] |} in
  UseCartContextType.totalItems (fst (useCartContext st)) = 3 /\
  UseCartContextType.totalPrice (fst (useCartContext st)) = "$39.97".
Proof.
  vm_compute. split; reflexivity.
Qed.

(** *** C10 *)

(** C10: when [old] is the line of the cart with sku [s], ADD with a
    payload of sku [s] returns the lines of other skus in their order
    followed by one line of the payload's name and price with the qty of
    [old] plus 1, and QUANTITY with a payload of sku [s] returns them
    followed by [old] with the qty of the payload: the updated line is the
    last of the new cart. *)
Theorem update_moves_line_last (st : CartStateType) (s : string) (old : CartItemType) :
  find (fun i => (sku i =? s)%string) (cart st) = Some old ->
  (forall p, sku p = s ->
     reducer st (add_action p) =
     Return {| cart := filter (fun i => negb (sku i =? s)%string) (cart st) ++
                 [ {| sku := s; name := name p; price := price p;
                      qty := qty old + 1 |} ] |}) /\
  (forall p, sku p = s ->
     reducer st (quantity_action p) =
     Return {| cart := filter (fun i => negb (sku i =? s)%string) (cart st) ++
                 [ {| sku := sku old; name := name old; price := price old;
                      qty := qty p |} ] |}).
Proof.
  intros F. split; intros p <-; unfold reducer; simpl; now rewrite F.
Qed.

Lemma update_moves_line_last_witness :
  let st := {| cart := [widget 2; premium_widget 1; deluxe_widget 1] |} in
  reducer st (add_action (widget 1)) =
    Return {| cart := [premium_widget 1; deluxe_widget 1; widget 3] |} /\
  reducer st (quantity_action (widget 9)) =
    Return {| cart := [premium_widget 1; deluxe_widget 1; widget 9] |}.
Proof.
  intros st.
  destruct (update_moves_line_last st "item0001" (widget 2) eq_refl) as [A Q].
  split.
  - exact (A (widget 1) eq_refl).
  - exact (Q (widget 9) eq_refl).
Defined.


(** * Further properties of the code *)

(** ** The reducer of the cart *)

(** X1: ADD, REMOVE and QUANTITY without a payload throw, each its own
    message, and the dispatch leaves the state as it was; SUBMIT without a
    payload returns the empty cart. *)
Theorem missing_payload_throws (st : CartStateType) :
  (reducer st {| type := REDUCER_ACTION_TYPE.ADD; payload := None |} =
     Throw "action.payload missing in ADD action" /\
   reducer st {| type := REDUCER_ACTION_TYPE.REMOVE; payload := None |} =
     Throw "action.payload missing in REMOVE action" /\
   reducer st {| type := REDUCER_ACTION_TYPE.QUANTITY; payload := None |} =
     Throw "action.payload missing in QUANTITY action" /\
   reducer st {| type := REDUCER_ACTION_TYPE.SUBMIT; payload := None |} =
     Return initCartState) /\
  forall t, t <> REDUCER_ACTION_TYPE.SUBMIT ->
    dispatch st {| type := t; payload := None |} = st.
Proof.
  split; [repeat split|].
  intros t Ht. unfold dispatch, reducer. simpl.
  apply String.eqb_neq in Ht. rewrite Ht.
  repeat match goal with |- context [(t =? ?k)%string] =>
    destruct (t =? k)%string end; reflexivity.
Qed.

(** X2: the reducer throws in these cases and no other: the type is ADD,
    REMOVE or QUANTITY and the payload is absent; the type is QUANTITY and
    no line has the sku of the payload; the type is none of the four. *)
Theorem reducer_throws_iff (st : CartStateType) (a : ReducerAction) :
  (exists msg, reducer st a = Throw msg) <->
  ((type a = REDUCER_ACTION_TYPE.ADD \/ type a = REDUCER_ACTION_TYPE.REMOVE \/
    type a = REDUCER_ACTION_TYPE.QUANTITY) /\ payload a = None) \/
  (type a = REDUCER_ACTION_TYPE.QUANTITY /\
   exists p, payload a = Some p /\ Forall (fun i => sku i <> sku p) (cart st)) \/
  (type a <> REDUCER_ACTION_TYPE.ADD /\ type a <> REDUCER_ACTION_TYPE.REMOVE /\
   type a <> REDUCER_ACTION_TYPE.QUANTITY /\ type a <> REDUCER_ACTION_TYPE.SUBMIT).
Proof.
  unfold reducer.
  destruct (String.eqb_spec (type a) REDUCER_ACTION_TYPE.ADD) as [E1|E1].
  { destruct (payload a) as [p|] eqn:P.
    - split; [intros [m H]; discriminate|].
      intros [[_ H]|[[H _]|[H _]]]; try discriminate.
      + rewrite E1 in H. discriminate.
      + contradiction.
    - split; [intros _; left; auto|intros _; eexists; reflexivity]. }
  destruct (String.eqb_spec (type a) REDUCER_ACTION_TYPE.REMOVE) as [E2|E2].
  { destruct (payload a) as [p|] eqn:P.
    - split; [intros [m H]; discriminate|].
      intros [[_ H]|[[H _]|[_ [H _]]]]; try discriminate.
      + rewrite E2 in H. discriminate.
      + contradiction.
    - split; [intros _; left; auto|intros _; eexists; reflexivity]. }
  destruct (String.eqb_spec (type a) REDUCER_ACTION_TYPE.QUANTITY) as [E3|E3].
  { destruct (payload a) as [p|] eqn:P.
    - destruct (find _ (cart st)) as [old|] eqn:F.
      + split; [intros [m H]; discriminate|].
        intros [[_ H]|[[_ [q [Q H]]]|[_ [_ [H _]]]]]; try discriminate.
        * injection Q as <-. apply find_none_iff in H. congruence.
        * contradiction.
      + split; [|intros _; eexists; reflexivity].
        intros _. right; left. split; [assumption|].
        exists p. split; [reflexivity|]. now apply find_none_iff.
    - split; [intros _; left; auto|intros _; eexists; reflexivity]. }
  destruct (String.eqb_spec (type a) REDUCER_ACTION_TYPE.SUBMIT) as [E4|E4].
  { split; [intros [m H]; discriminate|].
    intros [[[H|[H|H]] _]|[[H _]|[_ [_ [_ H]]]]]; contradiction. }
  split; [|intros _; eexists; reflexivity].
  intros _. right; right. auto.
Qed.

Lemma remove_absent_sku_is_noop_aux (st : CartStateType) (p : CartItemType) :
  Forall (fun i => sku i <> sku p) (cart st) ->
  reducer st (remove_action p) = Return st.
Proof.
  intros H. apply find_none_iff in H. unfold reducer. simpl.
  rewrite (find_none_filter _ _ H). now destruct st.
Qed.

(** X3: REMOVE of a sku that no line has returns the state it was given. *)
Theorem remove_absent_sku_is_noop (st : CartStateType) (p : CartItemType) :
  Forall (fun i => sku i <> sku p) (cart st) ->
  reducer st (remove_action p) = Return st.
Proof. apply remove_absent_sku_is_noop_aux. Qed.

Lemma remove_absent_sku_is_noop_witness :
  let st := {| cart := [widget 2; premium_widget 1] |} in
  reducer st (remove_action (deluxe_widget 1)) = Return st.
Proof.
  intros st. apply (remove_absent_sku_is_noop st (deluxe_widget 1)).
  repeat constructor; simpl; discriminate.
Defined.

Lemma filter_sku_idem (s : string) (l : list CartItemType) :
  filter (fun i => negb (sku i =? s)%string)
         (filter (fun i => negb (sku i =? s)%string) l) =
  filter (fun i => negb (sku i =? s)%string) l.
Proof.
  induction l as [|x l IH]; simpl; [reflexivity|].
  destruct (sku x =? s)%string eqn:E; simpl; [assumption|].
  rewrite E. simpl. now rewrite IH.
Qed.

Lemma find_filter_none (s : string) (l : list CartItemType) :
  find (fun i => (sku i =? s)%string)
       (filter (fun i => negb (sku i =? s)%string) l) = None.
Proof.
  induction l as [|x l IH]; simpl; [reflexivity|].
  destruct (sku x =? s)%string eqn:E; simpl; [assumption|].
  now rewrite E.
Qed.

Lemma find_app_none (s : string) (l : list CartItemType) (x : CartItemType) :
  find (fun i => (sku i =? s)%string) l = None ->
  find (fun i => (sku i =? s)%string) (l ++ [x]) =
  if (sku x =? s)%string then Some x else None.
Proof.
  induction l as [|y l IH]; simpl; [reflexivity|].
  destruct (sku y =? s)%string; [discriminate|]. exact IH.
Qed.

Lemma filter_app_last (s : string) (l : list CartItemType) (x : CartItemType) :
  sku x = s ->
  filter (fun i => negb (sku i =? s)%string) (l ++ [x]) =
  filter (fun i => negb (sku i =? s)%string) l.
Proof.
  intros E. rewrite filter_app. simpl.
  rewrite E, String.eqb_refl. simpl. apply app_nil_r.
Qed.

(** X4: REMOVE after ADD of the same sku leaves what REMOVE alone leaves;
    when no line had the sku, it leaves the state as it was before the
    ADD. *)
Theorem remove_undoes_add (st : CartStateType) (p : CartItemType) :
  dispatch (dispatch st (add_action p)) (remove_action p) =
    dispatch st (remove_action p) /\
  (Forall (fun i => sku i <> sku p) (cart st) ->
   dispatch (dispatch st (add_action p)) (remove_action p) = st).
Proof.
  assert (E : dispatch (dispatch st (add_action p)) (remove_action p) =
              dispatch st (remove_action p)).
  { unfold dispatch, reducer. simpl.
    rewrite filter_app_last by reflexivity. now rewrite filter_sku_idem. }
  split; [exact E|].
  intros H. rewrite E. unfold dispatch.
  now rewrite (remove_absent_sku_is_noop_aux st p H).
Qed.

Lemma remove_undoes_add_witness :
  let st := {| cart := [widget 2; premium_widget 1] |} in
  dispatch (dispatch st (add_action (deluxe_widget 5)))
           (remove_action (deluxe_widget 5)) = st.
Proof.
  intros st. apply (proj2 (remove_undoes_add st (deluxe_widget 5))).
  repeat constructor; simpl; discriminate.
Defined.

(** X5: the payload fields the reducer does not read.  ADD gives the same
    result whatever the qty of the payload, QUANTITY whatever its name and
    price, REMOVE whatever its name, price and qty. *)
Theorem payload_fields_not_read (st : CartStateType) (s n n' : string)
        (pr pr' : number) (q q' : Z) :
  reducer st (add_action {| sku := s; name := n; price := pr; qty := q |}) =
  reducer st (add_action {| sku := s; name := n; price := pr; qty := q' |}) /\
  reducer st (quantity_action {| sku := s; name := n; price := pr; qty := q |}) =
  reducer st (quantity_action {| sku := s; name := n'; price := pr'; qty := q |}) /\
  reducer st (remove_action {| sku := s; name := n; price := pr; qty := q |}) =
  reducer st (remove_action {| sku := s; name := n'; price := pr'; qty := q' |}).
Proof. repeat split. Qed.

(** X6: dispatching the same QUANTITY action twice leaves what dispatching
    it once leaves, and so does dispatching the same REMOVE action twice. *)
Theorem quantity_and_remove_idempotent (st : CartStateType) (p : CartItemType) :
  dispatch (dispatch st (quantity_action p)) (quantity_action p) =
    dispatch st (quantity_action p) /\
  dispatch (dispatch st (remove_action p)) (remove_action p) =
    dispatch st (remove_action p).
Proof.
  split.
  - unfold dispatch at 2 3. unfold reducer. simpl.
    destruct (find _ (cart st)) as [old|] eqn:F.
    + apply find_some_sku in F. destruct F as [_ F].
      unfold dispatch, reducer. simpl.
      rewrite find_app_none by apply find_filter_none. simpl.
      rewrite F, String.eqb_refl.
      rewrite filter_app_last by reflexivity. now rewrite filter_sku_idem.
    + unfold dispatch, reducer. simpl. now rewrite F.
  - unfold dispatch, reducer. simpl. now rewrite filter_sku_idem.
Qed.

(** ** [totalItems] along the transitions *)


Lemma fold_qty_shift (l : list CartItemType) (z : Z) :
  fold_left (fun previousValue cartItem => previousValue + qty cartItem) l z =
  z + fold_left (fun previousValue cartItem => previousValue + qty cartItem) l 0.
Proof.
  revert z. induction l as [|x l IH]; intros z; simpl; [lia|].
  rewrite (IH (z + qty x)), (IH (qty x)). lia.
Qed.

Lemma fold_qty_without (s : string) (l : list CartItemType) :
  NoDup (skus l) ->
  fold_left (fun previousValue cartItem => previousValue + qty cartItem) l 0 =
  qty_of_sku s l +
  fold_left (fun previousValue cartItem => previousValue + qty cartItem)
            (filter (fun i => negb (sku i =? s)%string) l) 0.
Proof.
  unfold qty_of_sku. induction l as [|x l IH]; intros N; simpl; [reflexivity|].
  inversion N as [|? ? Hx Hl]; subst.
  destruct (String.eqb_spec (sku x) s) as [E|E]; simpl.
  - rewrite find_none_filter; [apply fold_qty_shift|].
    apply find_none_iff. apply Forall_forall. intros i Hi C.
    apply Hx. unfold skus. rewrite in_map_iff. exists i. split; [congruence|assumption].
  - rewrite (fold_qty_shift l (qty x)),
            (fold_qty_shift (filter _ l) (qty x)), (IH Hl). lia.
Qed.

Lemma totalItems_of_cart (st : CartStateType) :
  totalItems_of st =
  fold_left (fun previousValue cartItem => previousValue + qty cartItem) (cart st) 0.
Proof. reflexivity. Qed.

Lemma fold_qty_snoc (l : list CartItemType) (x : CartItemType) :
  fold_left (fun previousValue cartItem => previousValue + qty cartItem) (l ++ [x]) 0 =
  fold_left (fun previousValue cartItem => previousValue + qty cartItem) l 0 + qty x.
Proof. now rewrite fold_left_app. Qed.

Lemma totalItems_after_add (st : CartStateType) (p : CartItemType) :
  NoDup (skus (cart st)) ->
  totalItems_of (dispatch st (add_action p)) = totalItems_of st + 1.
Proof.
  intros N. rewrite !totalItems_of_cart.
  rewrite (fold_qty_without (sku p) (cart st) N).
  unfold dispatch, reducer, qty_of_sku. simpl.
  rewrite fold_qty_snoc. simpl.
  destruct (find _ (cart st)); lia.
Qed.



(** X9: SUBMIT, with any payload or none and in any state, returns the
    state the cart starts in: whatever was dispatched before it, the events
    after it lead where they lead from the empty cart, and the hook run
    right after it returns [totalItems] 0, [totalPrice] "$0.00" and an
    empty [cart]. *)
Theorem submit_resets (st : CartStateType) (payload' : option CartItemType)
        (before after : list event) :
  let a := {| type := REDUCER_ACTION_TYPE.SUBMIT; payload := payload' |} in
  run st (before ++ Dispatch a :: after) = run initCartState after /\
  useCartContext (run st (before ++ [Dispatch a])) =
    ({| UseCartContextType.totalItems := 0;
        UseCartContextType.totalPrice := "$0.00";
        UseCartContextType.cart := [] |}, initCartState).
Proof.
  intros a. unfold run. rewrite !fold_left_app. simpl fold_left.
  change (dispatch (fold_left step before st) a) with initCartState.
  split; reflexivity.
Qed.

(** ** The hook *)




(** X12: when every sku gives an integer and the lines of the state are
    already in ascending order of it, a run of the hook leaves the state
    exactly as it was and returns the lines in the order of the state. *)
Theorem sorted_state_unchanged (st : CartStateType) :
  Forall has_suffix_integer (cart st) ->
  StronglySorted (key_le suffix_key) (cart st) ->
  snd (useCartContext st) = st /\
  UseCartContextType.cart (fst (useCartContext st)) = cart st.
Proof.
  intros H S. simpl.
  rewrite (sort_sorted_id compareBySku suffix_key has_suffix_integer
             compareBySku_key _ H S).
  now destruct st.
Qed.

Lemma sorted_state_unchanged_witness :
  let st := {| cart := [widget 2; premium_widget 1; deluxe_widget 4] |} in
  snd (useCartContext st) = st /\
  UseCartContextType.cart (fst (useCartContext st)) = cart st.
Proof.
  intros st. apply (sorted_state_unchanged st).
  - repeat constructor; vm_compute; discriminate.
  - repeat constructor; vm_compute; discriminate.
Defined.

Lemma sub_NaN (y : number) : sub NaN y = NaN.
Proof. now destruct y. Qed.

Lemma sort_NaN_keys (l : list CartItemType) :
  Forall (fun i => Number (slice_from_end 4 (sku i)) = NaN) l ->
  JSArray.sort compareBySku l = l.
Proof.
  induction 1 as [|x l Hx _ IH]; simpl; [reflexivity|].
  rewrite IH. destruct l as [|y l]; [reflexivity|]. simpl.
  rewrite gtb_zero_SortCompare. unfold compareBySku.
  now rewrite Hx, sub_NaN.
Qed.

(** X13: when the last four characters of no sku are a numeric literal
    ([Number] gives NaN for each), every comparison is NaN, the sort takes
    all lines as equal, and a run of the hook returns the lines in the
    order of the state and leaves the state as it was. *)
Theorem non_numeric_skus_keep_order (st : CartStateType) :
  Forall (fun i => Number (slice_from_end 4 (sku i)) = NaN) (cart st) ->
  UseCartContextType.cart (fst (useCartContext st)) = cart st /\
  snd (useCartContext st) = st.
Proof.
  intros H. simpl. rewrite (sort_NaN_keys _ H). now destruct st.
Qed.

Lemma non_numeric_skus_keep_order_witness :
  let st := {| cart := [ {| sku := "pear"; name := "Pear"; price := Number "2"; qty := 1 |};
                         {| sku := "green-apple"; name := "Apple"; price := Number "1"; qty := 3 |};
                         {| sku := "fig-"; name := "Fig"; price := Number "3"; qty := 1 |} ] |} in
  UseCartContextType.cart (fst (useCartContext st)) = cart st /\
  snd (useCartContext st) = st.
Proof.
  intros st. apply (non_numeric_skus_keep_order st).
  repeat constructor.
Defined.

Lemma step_suffix_integer (st : CartStateType) (ev : event) :
  Forall has_suffix_integer (cart st) -> add_has_suffix_integer ev ->
  Forall has_suffix_integer (cart (step st ev)).
Proof.
  intros H Q. destruct ev as [a|]; simpl in *.
  - unfold dispatch. pose proof (reducer_cases st a) as C.
    destruct (reducer st a) as [st'|]; [|assumption].
    destruct C as [[p [Hp [Ht E]]]|[[p [_ [_ E]]]|[[p [old [_ [_ [F E]]]]]|[_ E]]]];
      rewrite E.
    + apply Forall_app. split; [now apply Forall_filter_keep|].
      constructor; [|constructor]. apply (Q Ht p Hp).
    + now apply Forall_filter_keep.
    + apply Forall_app. split; [now apply Forall_filter_keep|].
      constructor; [|constructor].
      apply find_some in F. destruct F as [F _].
      rewrite Forall_forall in H. apply (H old F).
    + constructor.
  - eapply Permutation_Forall; [apply sort_Permutation|exact H].
Qed.

(** X14: when the sku of every added payload gives an integer, so does the
    sku of every line of every state reached from the empty cart, and the
    [cart] the hook returns for that state is in ascending order of it. *)
Theorem reachable_display_order_sorted (evs : list event) :
  Forall add_has_suffix_integer evs ->
  Forall has_suffix_integer (cart (run initCartState evs)) /\
  StronglySorted (key_le suffix_key)
    (UseCartContextType.cart (fst (useCartContext (run initCartState evs)))).
Proof.
  intros Q.
  assert (H : Forall has_suffix_integer (cart (run initCartState evs))).
  { apply (run_invariant (fun st => Forall has_suffix_integer (cart st))
                         add_has_suffix_integer); [|constructor|exact Q].
    intros st ev. apply step_suffix_integer. }
  split; [exact H|].
  apply (sort_sorted compareBySku suffix_key has_suffix_integer
           compareBySku_key _ H).
Qed.

Lemma reachable_display_order_sorted_witness :
  let evs := [Dispatch (add_action (deluxe_widget 1));
              Dispatch (add_action (widget 1));
              Render;
              Dispatch (quantity_action (deluxe_widget 2));
              Dispatch (add_action (premium_widget 1));
              Dispatch (remove_action (widget 1))] in
  Forall has_suffix_integer (cart (run initCartState evs)) /\
  StronglySorted (key_le suffix_key)
    (UseCartContextType.cart (fst (useCartContext (run initCartState evs)))).
Proof.
  intros evs. apply (reachable_display_order_sorted evs).
  repeat constructor; simpl; try discriminate;
    intros _ p E; injection E as <-; vm_compute; discriminate.
Defined.

(** X15: a line whose sku ends in four decimal digits has a sort key, the
    integer the four digits write in base ten, whatever comes before
    them. *)
Theorem decimal_suffix_is_sort_key (i : CartItemType) (pre : string) (a b c d : Z) :
  0 <= a < 10 -> 0 <= b < 10 -> 0 <= c < 10 -> 0 <= d < 10 ->
  sku i = (pre ++ four_digits a b c d)%string ->
  has_suffix_integer i /\ suffix_key i = 1000 * a + 100 * b + 10 * c + d.
Proof.
  intros Ha Hb Hc Hd E.
  pose proof (suffix_integer_decimal pre a b c d Ha Hb Hc Hd) as K.
  unfold has_suffix_integer, suffix_key. rewrite E, K.
  split; [discriminate|reflexivity].
Qed.

Lemma decimal_suffix_is_sort_key_witness :
  has_suffix_integer (premium_widget 1) /\ suffix_key (premium_widget 1) = 2.
Proof.
  apply (decimal_suffix_is_sort_key (premium_widget 1) "item" 0 0 0 2);
    try lia; reflexivity.
Defined.

Lemma substring_all (s : string) :
  forall n, (String.length s <= n)%nat -> substring 0 n s = s.
Proof.
  induction s as [|c s IH]; intros n H; simpl in *.
  - now destruct n.
  - destruct n as [|n]; [lia|]. rewrite IH by lia. reflexivity.
Qed.

(** X16: a sku of at most four characters is its own last four characters:
    its sort key is [Number] of the whole sku. *)
Theorem short_sku_key (i : CartItemType) :
  (String.length (sku i) <= 4)%nat ->
  slice_from_end 4 (sku i) = sku i /\
  suffix_integer (sku i) = integer_value (Number (sku i)).
Proof.
  intros H.
  assert (E : slice_from_end 4 (sku i) = sku i).
  { unfold slice_from_end.
    replace (String.length (sku i) - 4)%nat with 0%nat by lia.
    now apply substring_all. }
  split; [exact E|]. unfold suffix_integer. now rewrite E.
Qed.

Lemma short_sku_key_witness :
  let i := {| sku := "12"; name := "Twelve"; price := Number "1"; qty := 1 |} in
  slice_from_end 4 (sku i) = sku i /\
  suffix_integer (sku i) = integer_value (Number (sku i)).
Proof.
  intros i. apply (short_sku_key i). simpl. lia.
Defined.

(** ** The product view and the catalog *)

Lemma run_clicks_totalItems (ps : list ProductType.t) :
  forall st, NoDup (skus (cart st)) ->
  totalItems_of (run st (map (fun p => Dispatch (Product.onAddToCart p)) ps)) =
  totalItems_of st + Z.of_nat (List.length ps).
Proof.
  induction ps as [|p ps IH]; intros st N.
  - simpl. lia.
  - simpl map. unfold run in *. simpl fold_left.
    rewrite IH by (apply (step_NoDup st (Dispatch (Product.onAddToCart p)) N)).
    unfold Product.onAddToCart. fold (add_action
      {| sku := ProductType.sku p; name := ProductType.name p;
         price := ProductType.price p; qty := 1 |}).
    rewrite totalItems_after_add by assumption.
    cbn [List.length]. lia.
Qed.

(** X17: after any sequence of clicks on Add to Cart, on whatever products
    and in whatever order, starting from the empty cart, [totalItems] is
    the number of clicks. *)
Theorem clicks_count_totalItems (ps : list ProductType.t) :
  totalItems_of (run initCartState
                   (map (fun p => Dispatch (Product.onAddToCart p)) ps)) =
  Z.of_nat (List.length ps).
Proof.
  rewrite run_clicks_totalItems by constructor. reflexivity.
Qed.

Lemma catalog_has_suffix_integer (i : CartItemType) :
  from_catalog i -> has_suffix_integer i.
Proof.
  intros [p [Hp [E _]]]. unfold has_suffix_integer. rewrite E.
  unfold products, initState in Hp. simpl in Hp.
  destruct Hp as [<-|[<-|[<-|[]]]]; vm_compute; discriminate.
Qed.

Lemma step_from_catalog (st : CartStateType) (ev : event) :
  Forall from_catalog (cart st) -> catalog_add ev ->
  Forall from_catalog (cart (step st ev)).
Proof.
  intros H Q. destruct ev as [a|]; simpl in *.
  - unfold dispatch. pose proof (reducer_cases st a) as C.
    destruct (reducer st a) as [st'|]; [|assumption].
    destruct C as [[p [Hp [Ht E]]]|[[p [_ [_ E]]]|[[p [old [_ [_ [F E]]]]]|[_ E]]]];
      rewrite E.
    + apply Forall_app. split; [now apply Forall_filter_keep|].
      constructor; [|constructor].
      destruct (Q Ht) as [c [Hc Ea]]. rewrite Ea in Hp. simpl in Hp.
      injection Hp as <-. exists c. simpl. auto.
    + now apply Forall_filter_keep.
    + apply Forall_app. split; [now apply Forall_filter_keep|].
      constructor; [|constructor].
      apply find_some in F. destruct F as [F _].
      rewrite Forall_forall in H. destruct (H old F) as [c [Hc [E1 [E2 E3]]]].
      exists c. simpl. auto.
    + constructor.
  - eapply Permutation_Forall; [apply sort_Permutation|exact H].
Qed.

(** X18: when the only ADD actions are clicks on products of the catalog,
    every line of every state reached from the empty cart has the sku, name
    and price of a product of the catalog, whatever REMOVE, QUANTITY and
    SUBMIT actions and renders come between, and the [cart] the hook
    returns is in ascending order of the item number. *)
Theorem catalog_cart_lines (evs : list event) :
  Forall catalog_add evs ->
  Forall from_catalog (cart (run initCartState evs)) /\
  StronglySorted (key_le suffix_key)
    (UseCartContextType.cart (fst (useCartContext (run initCartState evs)))).
Proof.
  intros Q.
  assert (H : Forall from_catalog (cart (run initCartState evs))).
  { apply (run_invariant (fun st => Forall from_catalog (cart st)) catalog_add);
      [|constructor|exact Q].
    intros st ev. apply step_from_catalog. }
  split; [exact H|].
  apply (sort_sorted compareBySku suffix_key has_suffix_integer compareBySku_key).
  eapply Forall_impl; [|exact H]. apply catalog_has_suffix_integer.
Qed.

Lemma catalog_cart_lines_witness :
  let evs :=
    match products with
    | [w; _; d] =>
      [Dispatch (Product.onAddToCart d); Dispatch (Product.onAddToCart w);
       Render; Dispatch (quantity_action (deluxe_widget 3));
       Dispatch (Product.onAddToCart w); Dispatch (remove_action (premium_widget 1))]
    | _ => []
    end in
  Forall from_catalog (cart (run initCartState evs)) /\
  StronglySorted (key_le suffix_key)
    (UseCartContextType.cart (fst (useCartContext (run initCartState evs)))).
Proof.
  intros evs. apply (catalog_cart_lines evs).
  unfold evs, products, initState.
  repeat constructor; simpl; try discriminate;
    intros _; eexists; (split; [|reflexivity]); simpl; tauto.
Defined.

(** [===] on numbers: equal when the same number, not NaN, or two zeros. *)
Lemma SFeqb_true_iff (x y : number) :
  SFeqb x y = true <->
  (x = y /\ x <> NaN) \/ (exists s s', x = S754_zero s /\ y = S754_zero s').
Proof.
  unfold SFeqb, NaN. split.
  - destruct x as [sx|sx| |sx mx ex], y as [sy|sy| |sy my ey]; simpl;
      repeat match goal with b : bool |- _ => destruct b end;
      try discriminate;
      try (intros _; right; eexists; eexists; split; reflexivity);
      try (intros _; left; split; [reflexivity|discriminate]);
      destruct (Z.compare_spec ex ey) as [E|E|E]; try discriminate;
      destruct (Pos.compare_cont Eq mx my) eqn:C; try discriminate;
      intros _; apply Pos.compare_eq in C; subst; left; split;
      (reflexivity || discriminate).
  - intros [[<- N]|[s [s' [-> ->]]]]; [|reflexivity].
    destruct x as [sx|sx| |sx mx ex]; simpl; try reflexivity.
    + now destruct sx.
    + contradiction.
    + rewrite Z.compare_refl, Pos.compare_cont_refl. now destruct sx.
Qed.

Lemma areProductsEqual_unfold (prev next : Product.PropsType) :
  Product.areProductsEqual prev next =
  (ProductType.sku (Product.product prev) =? ProductType.sku (Product.product next))%string
  && ((ProductType.name (Product.product prev) =? ProductType.name (Product.product next))%string
  && (SFeqb (ProductType.price (Product.product prev))
            (ProductType.price (Product.product next)) && true))
  && Bool.eqb (Product.inCart prev) (Product.inCart next).
Proof. reflexivity. Qed.

(** X19: [areProductsEqual] returns true exactly when the two products
    have the same sku and the same name, the two [inCart] are the same, and
    the two prices are the same number other than NaN or are both a
    zero. *)
Theorem areProductsEqual_true_iff (prev next : Product.PropsType) :
  Product.areProductsEqual prev next = true <->
  ProductType.sku (Product.product prev) = ProductType.sku (Product.product next) /\
  ProductType.name (Product.product prev) = ProductType.name (Product.product next) /\
  Product.inCart prev = Product.inCart next /\
  ((ProductType.price (Product.product prev) = ProductType.price (Product.product next) /\
    ProductType.price (Product.product prev) <> NaN) \/
   (exists s s', ProductType.price (Product.product prev) = S754_zero s /\
                 ProductType.price (Product.product next) = S754_zero s')).
Proof.
  rewrite areProductsEqual_unfold, !andb_true_iff, !String.eqb_eq,
          Bool.eqb_true_iff, SFeqb_true_iff.
  tauto.
Qed.

(** X20: props are equal to themselves for [areProductsEqual] exactly
    when the price of the product is not NaN, and [areProductsEqual] does
    not depend on the order of its two arguments. *)
Theorem areProductsEqual_refl_sym (prev next : Product.PropsType) :
  Product.areProductsEqual prev prev =
    negb (is_nan (ProductType.price (Product.product prev))) /\
  Product.areProductsEqual prev next = Product.areProductsEqual next prev.
Proof.
  split.
  - rewrite areProductsEqual_unfold, !String.eqb_refl, Bool.eqb_reflx.
    simpl. rewrite !andb_true_r.
    destruct (ProductType.price (Product.product prev)) as [s|s| |s m e];
      unfold SFeqb; simpl; try reflexivity.
    + now destruct s.
    + rewrite Z.compare_refl, Pos.compare_cont_refl. now destruct s.
  - apply Bool.eq_true_iff_eq.
    rewrite !areProductsEqual_unfold, !andb_true_iff, !String.eqb_eq,
            !Bool.eqb_true_iff, !SFeqb_true_iff.
    split; intros [[E1 [E2 [[[E3 N]|[s [s' [Z1 Z2]]]] _]]] E4];
      (repeat split; try congruence);
      [left; split; congruence | right; eauto
      |left; split; congruence | right; eauto].
Qed.

(** ** The counter *)

Lemma count_type_cons (t : Z) (a : Counter.ReducerAction)
      (l : list Counter.ReducerAction) :
  count_type t (a :: l) =
  (if Counter.type a =? t then 1 else 0) + count_type t l.
Proof.
  unfold count_type. simpl. destruct (Counter.type a =? t); simpl List.length; lia.
Qed.

Lemma counter_run_count (actions : list Counter.ReducerAction) :
  forall s,
  Counter.count (Counter.run s actions) =
  Counter.count s
  + count_type Counter.REDUCER_ACTION_TYPE.INCREMENT actions
  - count_type Counter.REDUCER_ACTION_TYPE.DECREMENT actions.
Proof.
  induction actions as [|a l IH]; intros s.
  - unfold count_type. simpl. lia.
  - unfold Counter.run in *. simpl fold_left. rewrite IH, !count_type_cons.
    unfold Counter.dispatch, Counter.reducer.
    unfold Counter.REDUCER_ACTION_TYPE.INCREMENT,
           Counter.REDUCER_ACTION_TYPE.DECREMENT,
           Counter.REDUCER_ACTION_TYPE.NEW_INPUT.
    destruct (Z.eqb_spec (Counter.type a) 1) as [E1|E1];
      destruct (Z.eqb_spec (Counter.type a) 0) as [E0|E0];
      destruct (Z.eqb_spec (Counter.type a) 2) as [E2|E2];
      cbn [Counter.count]; lia.
Qed.

(** X21: after any list of actions dispatched from the initial state of
    the counter, of the enum or not, with or without payload, [count] is the
    number of INCREMENT actions less the number of DECREMENT actions. *)
Theorem counter_count (actions : list Counter.ReducerAction) :
  Counter.count (Counter.run Counter.initState actions) =
  count_type Counter.REDUCER_ACTION_TYPE.INCREMENT actions
  - count_type Counter.REDUCER_ACTION_TYPE.DECREMENT actions.
Proof. rewrite counter_run_count. reflexivity. Qed.

Lemma counter_run_text_kept (actions : list Counter.ReducerAction) :
  Forall (fun a => Counter.type a <> Counter.REDUCER_ACTION_TYPE.NEW_INPUT) actions ->
  forall s, Counter.text (Counter.run s actions) = Counter.text s.
Proof.
  induction 1 as [|a l Ha _ IH]; intros s; [reflexivity|].
  unfold Counter.run in *. simpl fold_left. rewrite IH.
  unfold Counter.dispatch, Counter.reducer.
  destruct (Counter.type a =? Counter.REDUCER_ACTION_TYPE.DECREMENT);
    [reflexivity|].
  destruct (Counter.type a =? Counter.REDUCER_ACTION_TYPE.INCREMENT);
    [reflexivity|].
  apply Z.eqb_neq in Ha. now rewrite Ha.
Qed.

(** X22: [text] is what the last NEW_INPUT action carried: after actions
    [pre], a NEW_INPUT action [a] and actions [post] none of which is a
    NEW_INPUT, from any state, [text] is the payload of [a], and the empty
    string when [a] has no payload. *)
Theorem counter_text (s : Counter.state) (pre post : list Counter.ReducerAction)
        (a : Counter.ReducerAction) :
  Counter.type a = Counter.REDUCER_ACTION_TYPE.NEW_INPUT ->
  Forall (fun b => Counter.type b <> Counter.REDUCER_ACTION_TYPE.NEW_INPUT) post ->
  Counter.text (Counter.run s (pre ++ a :: post)) =
  match Counter.payload a with
  | Some v => v
  | None => ""
  end.
Proof.
  intros Ha Hpost. unfold Counter.run. rewrite fold_left_app. simpl fold_left.
  fold (Counter.run (Counter.dispatch (fold_left Counter.dispatch pre s) a) post).
  rewrite (counter_run_text_kept post Hpost).
  unfold Counter.dispatch, Counter.reducer. rewrite Ha. reflexivity.
Qed.

Lemma counter_text_witness :
  Counter.text
    (Counter.run Counter.initState
       ([Counter.increment; Counter.handleInput "a"] ++
        Counter.handleInput "ab" :: [Counter.decrement; Counter.increment])) = "ab".
Proof.
  apply (counter_text Counter.initState
           [Counter.increment; Counter.handleInput "a"]
           [Counter.decrement; Counter.increment]
           (Counter.handleInput "ab")).
  - reflexivity.
  - repeat constructor; discriminate.
Defined.

(** X23: the reducer of the counter throws exactly on a type outside the
    enum, with an empty message, and the dispatch then leaves the state as
    it was; on INCREMENT, DECREMENT and NEW_INPUT it returns a state,
    payload or not. *)
Theorem counter_throws_iff (s : Counter.state) (a : Counter.ReducerAction) :
  ((exists msg, Counter.reducer s a = Counter.Throw msg) <->
   (Counter.type a <> Counter.REDUCER_ACTION_TYPE.INCREMENT /\
    Counter.type a <> Counter.REDUCER_ACTION_TYPE.DECREMENT /\
    Counter.type a <> Counter.REDUCER_ACTION_TYPE.NEW_INPUT)) /\
  (forall msg, Counter.reducer s a = Counter.Throw msg ->
     msg = "" /\ Counter.dispatch s a = s).
Proof.
  unfold Counter.dispatch, Counter.reducer.
  destruct (Z.eqb_spec (Counter.type a) Counter.REDUCER_ACTION_TYPE.DECREMENT) as [E1|E1].
  { split; [split|]; [intros [m H]; discriminate| |intros m H; discriminate].
    intros [_ [H _]]. contradiction. }
  destruct (Z.eqb_spec (Counter.type a) Counter.REDUCER_ACTION_TYPE.INCREMENT) as [E0|E0].
  { split; [split|]; [intros [m H]; discriminate| |intros m H; discriminate].
    intros [H _]. contradiction. }
  destruct (Z.eqb_spec (Counter.type a) Counter.REDUCER_ACTION_TYPE.NEW_INPUT) as [E2|E2].
  { split; [split|]; [intros [m H]; discriminate| |intros m H; discriminate].
    intros [_ [_ H]]. contradiction. }
  split; [split|].
  - intros _. auto.
  - intros _. eexists. reflexivity.
  - intros m H. injection H as <-. now split.
Qed.

Lemma counter_throws_iff_witness :
  let a := {| Counter.type := 7; Counter.payload := Some "x" |} in
  Counter.reducer Counter.initState a = Counter.Throw "" /\
  Counter.dispatch Counter.initState a = Counter.initState.
Proof.
  intros a.
  destruct (counter_throws_iff Counter.initState a) as [[_ T] M].
  destruct T as [msg H]; [repeat split; discriminate|].
  destruct (M msg H) as [E D]. subst msg. split; [exact H|exact D].
Defined.

Lemma missing_payload_throws_witness :
  let st := {| cart := [widget 2] |} in
  dispatch st {| type := REDUCER_ACTION_TYPE.QUANTITY; payload := None |} = st.
Proof.
  intros st.
  apply (proj2 (missing_payload_throws st) REDUCER_ACTION_TYPE.QUANTITY).
  discriminate.
Defined.

(** ** ADD of a sku the cart does not hold *)

(** X24: ADD with a payload whose sku no line has returns the lines of the
    state in their order followed by one new line of the sku, name and
    price of the payload with qty 1, whatever the qty of the payload. *)
Theorem add_new_sku_appends (st : CartStateType) (p : CartItemType) :
  Forall (fun i => sku i <> sku p) (cart st) ->
  reducer st (add_action p) =
  Return {| cart := cart st ++
              [ {| sku := sku p; name := name p; price := price p; qty := 1 |} ] |}.
Proof.
  intros H. apply find_none_iff in H. unfold reducer. simpl.
  now rewrite H, (find_none_filter _ _ H).
Qed.

Lemma add_new_sku_appends_witness :
  let st := {| cart := [deluxe_widget 2; widget 1] |} in
  reducer st (add_action (premium_widget 9)) =
  Return {| cart := [deluxe_widget 2; widget 1; premium_widget 1] |}.
Proof.
  intros st. apply (add_new_sku_appends st (premium_widget 9)).
  repeat constructor; simpl; discriminate.
Defined.
